(** * GUI.py: a batch image filter (ImageProcessor, GausianBlur,
      read_image_from_directory, apply_gaussian_blur)

    A shallow embedding of [src/GUI.py].  The program is effectful: it lists a
    directory, decodes, blurs and writes images through OpenCV, prints to
    standard output and pops up a Tk message box.  Those collaborators are not
    part of the program; they are the fields of the record [Extern], and every
    call to one of them is logged in the [trace] of the [World].  Python
    statements become computations in the monad [M], which threads the world
    and propagates raised exceptions.  The construction of the Tk form (lines
    133-149) and [browse_folder], which only fills the folder field, are left
    out: the two fields of the form are part of the world. *)

From Stdlib Require Import ZArith Lia Ascii String List Bool.
From stdpp Require Import base option list strings gmap.

Local Open Scope string_scope.
Local Open Scope Z_scope.

(** ** Python strings *)

Module Str.

(** [c.lower()] on an ASCII letter; every other byte is left alone.  The
    suffixes the program tests hold no letter that a non-ASCII code point
    lowers to, so this is what [str.lower] does for the test of line 104. *)
Definition ascii_lower (c : ascii) : ascii :=
  let n := nat_of_ascii c in
  if ((65 <=? n) && (n <=? 90))%nat then ascii_of_nat (n + 32) else c.

Fixpoint lower (s : string) : string :=
  match s with
  | EmptyString => EmptyString
  | String c s' => String (ascii_lower c) (lower s')
  end.

(** [s.endswith(suf)]: [s] is at least as long as [suf] and its last
    [len(suf)] characters are [suf]. *)
Definition endswith (s suf : string) : bool :=
  let n := String.length s in
  let m := String.length suf in
  (m <=? n)%nat && String.eqb (substring (n - m) m s) suf.

(** [s.endswith((t1, ..., tn))]: some member of the tuple is a suffix. *)
Definition endswith_any (s : string) (sufs : list string) : bool :=
  existsb (endswith s) sufs.

(** The text after the last dot of a name, when the name has a dot: the
    extension in the sense of the specification. *)
Fixpoint extension (s : string) : option string :=
  match s with
  | EmptyString => None
  | String c s' =>
      match extension s' with
      | Some e => Some e
      | None => if Ascii.eqb c "." then Some s' else None
      end
  end.

Fixpoint has_dot (s : string) : bool :=
  match s with
  | EmptyString => false
  | String c s' => Ascii.eqb c "." || has_dot s'
  end.

End Str.

(** ** Exceptions

    The values of this type are instances of Python's [Exception]: the class
    and the text [str(e)] gives.  These are the exceptions [int], [os.listdir]
    and the OpenCV calls raise, and the ones the program raises itself. *)

Inductive exn_class := ValueError | OSError | cv2_error.

Record exn := mk_exn { exn_cls : exn_class; exn_str : string }.

(** ** Images: NumPy arrays of shape (rows, cols, channels) *)

Record ndarray := mk_ndarray {
  rows : nat;
  cols : nat;
  channels : nat;
  data : list Z
}.

Definition shape (a : ndarray) : nat * nat * nat := (rows a, cols a, channels a).

(** ** The collaborators *)

Record Extern := {
  FS : Type;
  (** [int(s)] on a string: the integer, or the [ValueError] it raises. *)
  py_int : string -> exn + Z;
  (** [os.path.join(a, b)] *)
  os_path_join : string -> string -> string;
  (** [os.listdir(path)]: the names in the directory, in the order the
      system gives them, or the [OSError] for a missing or unreadable one. *)
  os_listdir : FS -> string -> exn + list string;
  (** [cv2.imread(path)]: the decoded array, [None] when the file cannot be
      opened or decoded. *)
  cv2_imread : FS -> string -> option ndarray;
  (** [cv2.GaussianBlur(src, ksize, sigmaX)] *)
  cv2_GaussianBlur : option ndarray -> Z * Z -> Z -> exn + ndarray;
  (** [cv2.imwrite(path, img)]: raises, or returns whether it wrote. *)
  cv2_imwrite : FS -> string -> option ndarray -> (exn + bool) * FS
}.

(** One entry of the log per call that leaves the program. *)
Inductive event :=
| Call_listdir (path : string)
| Call_imread (path : string)
| Call_GaussianBlur (src : option ndarray) (ksize : Z * Z) (sigmaX : Z)
| Call_imwrite (path : string) (img : option ndarray)
| Call_print (line : string)
| Call_showinfo (title message : string).

(** ** The world and the monad of statements *)

Record World (E : Extern) := mk_World {
  fs : FS E;
  (** the two [tk.StringVar]s of the form *)
  tk_folder_path : string;
  tk_kernel : string;
  trace : list event
}.
Arguments mk_World {E}.
Arguments fs {E}.
Arguments tk_folder_path {E}.
Arguments tk_kernel {E}.
Arguments trace {E}.

Inductive result (A : Type) :=
| Return (a : A)
| Raise (e : exn).
Arguments Return {A}.
Arguments Raise {A}.

Definition M (E : Extern) (A : Type) : Type := World E -> result A * World E.

Section Monad.
Context {E : Extern}.

Definition ret {A} (a : A) : M E A := fun w => (Return a, w).

Definition raise {A} (e : exn) : M E A := fun w => (Raise e, w).

Definition bind {A B} (m : M E A) (k : A -> M E B) : M E B :=
  fun w =>
    match m w with
    | (Return a, w') => k a w'
    | (Raise e, w') => (Raise e, w')
    end.

(** [try: body except Exception as e: handler(e)] *)
Definition try_except {A} (body : M E A) (handler : exn -> M E A) : M E A :=
  fun w =>
    match body w with
    | (Return a, w') => (Return a, w')
    | (Raise e, w') => handler e w'
    end.

Definition lift_sum {A} (r : exn + A) : M E A :=
  match r with
  | inl e => raise e
  | inr a => ret a
  end.

End Monad.

Notation "'let*' x := m 'in' k" := (bind m (fun x => k))
  (at level 10, x name, m at level 100, k at level 200,
   format "'[v' 'let*'  x  :=  m  'in' '/' k ']'").
Notation "m ;; k" := (bind m (fun _ => k))
  (at level 100, k at level 200, right associativity).

(** ** Calls to the collaborators, each logged before it runs *)

Module Py.
Section Calls.
Context {E : Extern}.

Definition emit (ev : event) (w : World E) : World E :=
  mk_World (fs w) (tk_folder_path w) (tk_kernel w) (trace w ++ [ev]).

Definition with_fs (f : FS E) (w : World E) : World E :=
  mk_World f (tk_folder_path w) (tk_kernel w) (trace w).

Definition listdir (path : string) : M E (list string) :=
  fun w =>
    let w1 := emit (Call_listdir path) w in
    lift_sum (os_listdir E (fs w1) path) w1.

Definition imread (path : string) : M E (option ndarray) :=
  fun w =>
    let w1 := emit (Call_imread path) w in
    (Return (cv2_imread E (fs w1) path), w1).

Definition GaussianBlur (src : option ndarray) (ksize : Z * Z) (sigmaX : Z)
  : M E ndarray :=
  fun w =>
    let w1 := emit (Call_GaussianBlur src ksize sigmaX) w in
    lift_sum (cv2_GaussianBlur E src ksize sigmaX) w1.

Definition imwrite (path : string) (img : option ndarray) : M E bool :=
  fun w =>
    let w1 := emit (Call_imwrite path img) w in
    match cv2_imwrite E (fs w1) path img with
    | (inl e, f) => (Raise e, with_fs f w1)
    | (inr b, f) => (Return b, with_fs f w1)
    end.

Definition print (line : string) : M E unit :=
  fun w => (Return tt, emit (Call_print line) w).

Definition showinfo (title message : string) : M E unit :=
  fun w => (Return tt, emit (Call_showinfo title message) w).

(** [int(s)] *)
Definition int (s : string) : M E Z := lift_sum (py_int E s).

(** [v.get()] on a [tk.StringVar] *)
Definition StringVar_get (v : World E -> string) : M E string :=
  fun w => (Return (v w), w).

(** [for x in l: body(x)] *)
Fixpoint for_each (l : list string) (body : string -> M E unit) : M E unit :=
  match l with
  | [] => ret tt
  | x :: l' => body x ;; for_each l' body
  end.

End Calls.
End Py.

(** ** class ImageProcessor *)

Module ImageProcessor.

(** The attributes of an instance.  [image] holds whatever [cv2.imread]
    gave, which in Python may be [None]. *)
Record obj := mk { image : option ndarray }.

Section Methods.
Context {E : Extern}.

Definition __init__ (filename : string) : M E obj :=
  let* img := Py.imread filename in
  let self := mk img in
  match image self with
  | None =>
      raise (mk_exn ValueError ("Error: Image " +:+ filename +:+ " not found!"))
  | Some _ => ret self
  end.

Definition process (self : obj) : M E obj :=
  raise (mk_exn ValueError "Subclasses should implement this!").

Definition save_image (self : obj) (filename : string) : M E obj :=
  Py.imwrite filename (image self) ;; ret self.

End Methods.
End ImageProcessor.

(** ** class GausianBlur(ImageProcessor) *)

Module GausianBlur.

(** The inherited attributes and the new one. *)
Record obj := mk { super : ImageProcessor.obj; kernel : Z }.

Definition image (self : obj) : option ndarray :=
  ImageProcessor.image (super self).

Section Methods.
Context {E : Extern}.

Definition __init__ (filename : string) (kernel : Z) : M E obj :=
  let* base := ImageProcessor.__init__ filename in
  ret (mk base kernel).

Definition process (self : obj) : M E obj :=
  let* blurred := Py.GaussianBlur (image self) (kernel self, kernel self) 0 in
  ret (mk (ImageProcessor.mk (Some blurred)) (kernel self)).

(** inherited from [ImageProcessor] *)
Definition save_image (self : obj) (filename : string) : M E obj :=
  let* base := ImageProcessor.save_image (super self) filename in
  ret (mk base (kernel self)).

End Methods.
End GausianBlur.

(** ** Filter classes: what [read_image_from_directory] is handed *)

Record filter_class (E : Extern) (Args : Type) := {
  instance : Type;
  (** [filter_class(file_path, *filter_args)] *)
  new : string -> Args -> M E instance;
  (** [processor.process()] *)
  process : instance -> M E instance;
  (** [processor.save_image(path)] *)
  save_image : instance -> string -> M E instance
}.
Arguments instance {E Args}.
Arguments new {E Args}.
Arguments process {E Args}.
Arguments save_image {E Args}.

Definition ImageProcessor_class (E : Extern) : filter_class E unit := {|
  instance := ImageProcessor.obj;
  new := fun filename _ => ImageProcessor.__init__ filename;
  process := ImageProcessor.process;
  save_image := ImageProcessor.save_image
|}.

Definition GausianBlur_class (E : Extern) : filter_class E Z := {|
  instance := GausianBlur.obj;
  new := GausianBlur.__init__;
  process := GausianBlur.process;
  save_image := GausianBlur.save_image
|}.

(** ** The batch runner and the button's callback *)

Section Program.
Context {E : Extern}.

Definition image_suffixes : list string := [".png"; ".jpg"; ".jpeg"; ".bmp"].

(** line 104 *)
Definition eligible (filename : string) : bool :=
  Str.endswith_any (Str.lower filename) image_suffixes.

(** lines 111-114: the body of the [try] *)
Definition attempt {Args} (folder_path : string) (cls : filter_class E Args)
    (filter_args : Args) (filename : string) : M E unit :=
  let file_path := os_path_join E folder_path filename in
  let* processor := new cls file_path filter_args in
  let* processor := process cls processor in
  let output_folder := os_path_join E folder_path ("processed_" +:+ filename) in
  let* _ := save_image cls processor output_folder in
  ret tt.

Definition failure_line (filename : string) (e : exn) : string :=
  "Failed to process " +:+ filename +:+ ": " +:+ exn_str e.

Definition line_of (fe : string * exn) : string := failure_line (fst fe) (snd fe).

(** line 32: what [ImageProcessor.__init__] raises *)
Definition not_found (file_path : string) : exn :=
  mk_exn ValueError ("Error: Image " +:+ file_path +:+ " not found!").

(** line 113 *)
Definition output_path (folder_path filename : string) : string :=
  os_path_join E folder_path ("processed_" +:+ filename).

(** lines 107-116: [try] and [except] *)
Definition guarded {Args} (folder_path : string) (cls : filter_class E Args)
    (filter_args : Args) (filename : string) : M E unit :=
  try_except (attempt folder_path cls filter_args filename)
             (fun e => Py.print (failure_line filename e)).

(** lines 104-116: the body of the loop *)
Definition loop_body {Args} (folder_path : string) (cls : filter_class E Args)
    (filter_args : Args) (filename : string) : M E unit :=
  if eligible filename then guarded folder_path cls filter_args filename
  else ret tt.

Definition read_image_from_directory {Args} (folder_path : string)
    (cls : filter_class E Args) (filter_args : Args) : M E unit :=
  let* names := Py.listdir folder_path in
  Py.for_each names (loop_body folder_path cls filter_args).

(** line 131: the message box *)
Definition success : event :=
  Call_showinfo "Success" "Gaussian blur applied to all images.".

Definition apply_gaussian_blur : M E unit :=
  let* folder := Py.StringVar_get tk_folder_path in
  let* text := Py.StringVar_get tk_kernel in
  let* k := Py.int text in
  read_image_from_directory folder (GausianBlur_class E) k ;;
  Py.showinfo "Success" "Gaussian blur applied to all images.".

End Program.
Arguments output_path : clear implicits.

(** ** Reading the log *)

(** the lines printed, in order *)
Definition prints (t : list event) : list string :=
  omap (fun ev => match ev with Call_print line => Some line | _ => None end) t.

(** the paths handed to [cv2.imwrite], in order *)
Definition writes (t : list event) : list string :=
  omap (fun ev => match ev with Call_imwrite path _ => Some path | _ => None end) t.

(** the paths handed to [cv2.imread], in order *)
Definition reads (t : list event) : list string :=
  omap (fun ev => match ev with Call_imread path => Some path | _ => None end) t.

(** the window sizes handed to [cv2.GaussianBlur], in order *)
Definition ksizes (t : list event) : list (Z * Z) :=
  omap (fun ev => match ev with Call_GaussianBlur _ k _ => Some k | _ => None end) t.

(** ** Eligibility in the words of the specification *)

Definition image_extensions : list string := ["png"; "jpg"; "jpeg"; "bmp"].

(** The extension of the name, compared without regard to case, is one of
    the four. *)
Definition has_image_extension (name : string) : bool :=
  match Str.extension name with
  | Some e => existsb (String.eqb (Str.lower e)) image_extensions
  | None => false
  end.

(** ** cv2.GaussianBlur *)

Module cv2.

Definition valid_ksize (k : Z) : bool := (0 <? k) && Z.odd k.

(** Border handling: an index outside [0, len) is reflected back inside. *)
Definition reflect (p : Z) (len : nat) : nat :=
  if (len <=? 1)%nat then 0%nat
  else
    let period := 2 * (Z.of_nat len - 1) in
    let q := p mod period in
    Z.to_nat (if q <? Z.of_nat len then q else period - q).

Definition saturate (v : Z) : Z := Z.max 0 (Z.min 255 v).

Section Blur.

(** The one-dimensional Gaussian coefficients for a window of [ksize]
    samples, in fixed point; with [sigma = 0] the standard deviation is the
    one derived from [ksize]. *)
Variable getGaussianKernel : Z -> Z -> list Z.

Definition at_ (a : ndarray) (y x c : nat) : Z :=
  nth ((y * cols a + x) * channels a + c)%nat (data a) 0.

(** The weighted sum of the samples [sample (centre + i - half)] for the
    [i]-th coefficient, divided by the sum of the coefficients. *)
Definition convolve (ws : list Z) (sample : Z -> Z) (centre : nat) : Z :=
  let half := Z.of_nat (length ws) / 2 in
  let acc :=
    fold_left
      (fun s iw => s + snd iw * sample (Z.of_nat centre + Z.of_nat (fst iw) - half))
      (combine (seq 0 (length ws)) ws) 0 in
  let total := fold_left Z.add ws 0 in
  saturate ((2 * acc + total) / (2 * total)).

Definition build (a : ndarray) (f : nat -> nat -> nat -> Z) : ndarray :=
  mk_ndarray (rows a) (cols a) (channels a)
    (map (fun i =>
            let c := (i mod channels a)%nat in
            let x := ((i / channels a) mod cols a)%nat in
            let y := (i / (channels a * cols a))%nat in
            f y x c)
         (seq 0 (rows a * cols a * channels a))).

(** one pass along the rows, one along the columns *)
Definition blur_x (ws : list Z) (a : ndarray) : ndarray :=
  build a (fun y x c => convolve ws (fun p => at_ a y (reflect p (cols a)) c) x).

Definition blur_y (ws : list Z) (a : ndarray) : ndarray :=
  build a (fun y x c => convolve ws (fun p => at_ a (reflect p (rows a)) x c) y).

(** Modelled from the spec: [cv2.GaussianBlur], the OpenCV routine that
    [GausianBlur.process] calls, is not part of the repository.  Section 4.1
    of the specification describes it: a separable Gaussian convolution with
    a window of [kernelSize] samples each way, reflected borders, an output
    of the dimensions and channel count of the input, and an error for a
    size that is not a positive odd integer. *)
Definition GaussianBlur (src : option ndarray) (ksize : Z * Z) (sigmaX : Z)
  : exn + ndarray :=
  match src with
  | None => inl (mk_exn cv2_error "src is not a numpy array, neither a scalar")
  | Some a =>
      if valid_ksize (fst ksize) && valid_ksize (snd ksize) then
        inr (blur_y (getGaussianKernel (snd ksize) sigmaX)
               (blur_x (getGaussianKernel (fst ksize) sigmaX) a))
      else
        inl (mk_exn cv2_error
               "ksize.width > 0 && ksize.width % 2 == 1 && ksize.height > 0 && ksize.height % 2 == 1")
  end.

End Blur.
End cv2.

(** ** A reference environment

    A small disk and codec on which the program can be run: directories are
    listings, files are lists of bytes, and an image file is the three
    dimensions followed by the samples. *)

Module Ref.

Record disk := mk_disk {
  dirs : gmap string (list string);
  files : gmap string (list Z)
}.

(** [posixpath.join(a, b)] *)
Definition join (a b : string) : string :=
  if String.prefix "/" b then b
  else if String.eqb a "" || Str.endswith a "/" then a +:+ b
  else a +:+ "/" +:+ b.

Definition decode (bytes : list Z) : option ndarray :=
  match bytes with
  | r :: c :: ch :: samples =>
      let a := mk_ndarray (Z.to_nat r) (Z.to_nat c) (Z.to_nat ch) samples in
      if (0 <? r) && (0 <? c) && (0 <? ch)
         && (length samples =? rows a * cols a * channels a)%nat
      then Some a else None
  | _ => None
  end.

Definition encode (a : ndarray) : list Z :=
  Z.of_nat (rows a) :: Z.of_nat (cols a) :: Z.of_nat (channels a) :: data a.

Definition listdir (d : disk) (path : string) : exn + list string :=
  match dirs d !! path with
  | Some names => inr names
  | None =>
      inl (mk_exn OSError ("[Errno 2] No such file or directory: '" +:+ path +:+ "'"))
  end.

Definition imread (d : disk) (path : string) : option ndarray :=
  files d !! path ≫= decode.

(** Every write succeeds, whatever the extension; the listings are left
    as they are. *)
Definition imwrite (d : disk) (path : string) (img : option ndarray)
  : (exn + bool) * disk :=
  match img with
  | None => (inl (mk_exn cv2_error "img is not a numpy array, neither a scalar"), d)
  | Some a => (inr true, mk_disk (dirs d) (<[path := encode a]> (files d)))
  end.

(** The integer literals of the runs below: an optional sign and decimal
    digits.  (Python's [int] also takes blanks around the literal and
    underscores between digits.) *)
Definition digit (c : ascii) : option Z :=
  let n := Z.of_nat (nat_of_ascii c) in
  if (48 <=? n) && (n <=? 57) then Some (n - 48) else None.

Fixpoint digits (acc : Z) (s : string) : option Z :=
  match s with
  | EmptyString => Some acc
  | String c s' =>
      match digit c with
      | Some d => digits (10 * acc + d) s'
      | None => None
      end
  end.

Definition int (s : string) : exn + Z :=
  let bad :=
    inl (mk_exn ValueError ("invalid literal for int() with base 10: '" +:+ s +:+ "'")) in
  let unsigned (t : string) :=
    match t with
    | EmptyString => None
    | _ => digits 0 t
    end in
  match s with
  | String "-" t => match unsigned t with Some n => inr (- n) | None => bad end
  | String "+" t => match unsigned t with Some n => inr n | None => bad end
  | _ => match unsigned s with Some n => inr n | None => bad end
  end.

(** The weights 1, 2, 1 / 1, 4, 6, 4, 1 / ...: the row of Pascal's triangle
    with [ksize] entries. *)
Fixpoint pascal (n : nat) : list Z :=
  match n with
  | O => [1]
  | S n' => let r := pascal n' in zip_with Z.add (0 :: r) (r ++ [0])
  end.

Definition kernel_weights (ksize sigma : Z) : list Z :=
  pascal (Z.to_nat (ksize - 1)).

Definition env : Extern := {|
  FS := disk;
  py_int := int;
  os_path_join := join;
  os_listdir := listdir;
  cv2_imread := imread;
  cv2_GaussianBlur := cv2.GaussianBlur kernel_weights;
  cv2_imwrite := imwrite
|}.

(** A 2 x 2 image of one channel, and a directory [pics] holding a damaged
    image, a text file and an image. *)
Definition picture : ndarray := mk_ndarray 2 2 1 [10; 20; 30; 40].

Definition disk0 : disk := {|
  dirs := {[ "pics" := ["bad.jpg"; "notes.txt"; "a.PNG"] ]};
  files := {[ "pics/a.PNG" := encode picture;
              "pics/notes.txt" := [104; 105];
              "pics/bad.jpg" := [1; 2] ]}
|}.

Definition world0 (kernel : string) : World env :=
  mk_World (disk0 : FS env) "pics" kernel [].

Definition names0 : list string := ["bad.jpg"; "notes.txt"; "a.PNG"].

Definition blur : filter_class env Z := GausianBlur_class env.

End Ref.

(** ** The Browse button *)

Section Browse.
Context {E : Extern}.

(** [folder_path.set(value)] *)
Definition folder_path_set (value : string) : M E unit :=
  fun w => (Return tt, mk_World (fs w) value (tk_kernel w) (trace w)).

(** lines 118-123.  [askdirectory] is the dialog of [filedialog]: it answers
    with the folder the user picked, or with the empty string when the
    dialog is dismissed. *)
Definition browse_folder (askdirectory : M E string) : M E unit :=
  let* folder := askdirectory in
  folder_path_set folder.

End Browse.

(** ** The reasons a turn of the loop prints *)

Section Reasons.
Context {E : Extern}.

(** The reason a turn of the loop prints for a file that does not get past
    [process]: line 32 when the image does not load, and otherwise what
    [process] raises for the loaded image. *)
Definition turn_failure (reject : ndarray -> exn) (f : FS E)
    (folder_path filename : string) : exn :=
  match cv2_imread E f (os_path_join E folder_path filename) with
  | Some img => reject img
  | None => not_found (os_path_join E folder_path filename)
  end.

(** line 42 *)
Definition not_implemented : exn :=
  mk_exn ValueError "Subclasses should implement this!".

End Reasons.

(** More reference environments on the disk of [Ref]: one mounted
    read-only, where [cv2.imwrite] writes nothing and answers [False], one
    where it raises, and a folder without any image. *)

Module RefMore.

Definition imwrite_refused (d : Ref.disk) (path : string) (img : option ndarray)
  : (exn + bool) * Ref.disk :=
  match img with
  | None => (inl (mk_exn cv2_error "img is not a numpy array, neither a scalar"), d)
  | Some _ => (inr false, d)
  end.

Definition write_error : exn := mk_exn cv2_error "could not write the image".

Definition imwrite_raising (d : Ref.disk) (path : string) (img : option ndarray)
  : (exn + bool) * Ref.disk :=
  (inl write_error, d).

Definition readonly : Extern := {|
  FS := Ref.disk;
  py_int := Ref.int;
  os_path_join := Ref.join;
  os_listdir := Ref.listdir;
  cv2_imread := Ref.imread;
  cv2_GaussianBlur := cv2.GaussianBlur Ref.kernel_weights;
  cv2_imwrite := imwrite_refused
|}.

Definition failing : Extern := {|
  FS := Ref.disk;
  py_int := Ref.int;
  os_path_join := Ref.join;
  os_listdir := Ref.listdir;
  cv2_imread := Ref.imread;
  cv2_GaussianBlur := cv2.GaussianBlur Ref.kernel_weights;
  cv2_imwrite := imwrite_raising
|}.

Definition readonly_world : World readonly :=
  mk_World (Ref.disk0 : FS readonly) "pics" "3" [].

Definition failing_world : World failing :=
  mk_World (Ref.disk0 : FS failing) "pics" "3" [].

Definition docs : Ref.disk := {|
  Ref.dirs := {[ "docs" := ["notes.txt"; "todo.md"] ]};
  Ref.files := {[ "docs/notes.txt" := [104; 105]; "docs/todo.md" := [111] ]}
|}.

Definition docs_world : World Ref.env :=
  mk_World (docs : FS Ref.env) "docs" "3" [].

Definition blurred : ndarray := mk_ndarray 2 2 1 [25; 25; 25; 25].

Definition ksize_error : exn :=
  mk_exn cv2_error
    "ksize.width > 0 && ksize.width % 2 == 1 && ksize.height > 0 && ksize.height % 2 == 1".

End RefMore.

(** * Properties *)

(** ** Strings *)

Module StrFacts.
Import Str.

Lemma app_cons (c : ascii) (a b : string) :
  String c a +:+ b = String c (a +:+ b).
Proof. reflexivity. Qed.

Lemma length_app (a b : string) :
  String.length (a +:+ b) = (String.length a + String.length b)%nat.
Proof.
  induction a as [|c a IH]; [reflexivity|].
  rewrite app_cons. simpl. now rewrite IH.
Qed.

Lemma substring_all (s : string) : substring 0 (String.length s) s = s.
Proof. induction s as [|c s IH]; simpl; [reflexivity | now rewrite IH]. Qed.

Lemma substring_skip (p s : string) (m : nat) :
  substring (String.length p) m (p +:+ s) = substring 0 m s.
Proof.
  induction p as [|c p IH]; [reflexivity|].
  rewrite app_cons. simpl. exact IH.
Qed.

Lemma substring_split (s : string) (k : nat) :
  (k <= String.length s)%nat ->
  s = substring 0 k s +:+ substring k (String.length s - k) s.
Proof.
  revert k. induction s as [|c s IH]; intros k Hk.
  - destruct k; reflexivity.
  - destruct k as [|k]; simpl.
    + now rewrite substring_all.
    + rewrite app_cons. f_equal. apply IH. simpl in Hk. lia.
Qed.

(** [endswith] is the suffix relation. *)
Lemma endswith_spec (s suf : string) :
  endswith s suf = true <-> exists p, s = p +:+ suf.
Proof.
  unfold endswith. rewrite andb_true_iff, Nat.leb_le, String.eqb_eq. split.
  - intros [Hle Hsub]. exists (substring 0 (String.length s - String.length suf) s).
    pose proof (substring_split s (String.length s - String.length suf)) as Hs.
    replace (String.length s - (String.length s - String.length suf))%nat
      with (String.length suf) in Hs by lia.
    rewrite Hsub in Hs. apply Hs. lia.
  - intros [p ->]. rewrite length_app. split; [lia|].
    replace (String.length p + String.length suf - String.length suf)%nat
      with (String.length p) by lia.
    rewrite substring_skip. apply substring_all.
Qed.

Lemma ascii_lower_dot (c : ascii) :
  Ascii.eqb (ascii_lower c) "." = Ascii.eqb c ".".
Proof. destruct c as [[] [] [] [] [] [] [] []]; reflexivity. Qed.

Lemma lower_app (a b : string) : lower (a +:+ b) = lower a +:+ lower b.
Proof.
  induction a as [|c a IH]; [reflexivity|].
  rewrite app_cons. simpl. now rewrite IH, app_cons.
Qed.

Lemma extension_lower (s : string) :
  extension (lower s) = option_map lower (extension s).
Proof.
  induction s as [|c s IH]; simpl; [reflexivity|].
  rewrite IH, ascii_lower_dot.
  destruct (extension s); simpl; [reflexivity|].
  destruct (Ascii.eqb c "."); reflexivity.
Qed.

Lemma extension_None (s : string) : extension s = None <-> has_dot s = false.
Proof.
  induction s as [|c s IH]; simpl; [tauto|].
  destruct (extension s) as [e|].
  - split; [discriminate|]. intros H. apply orb_false_iff in H as [_ H].
    apply IH in H. discriminate.
  - destruct (Ascii.eqb c "."); simpl; [split; discriminate|]. tauto.
Qed.

(** The extension of [p.e] is [e] when [e] holds no dot. *)
Lemma extension_app_dot (p e : string) :
  has_dot e = false -> extension (p +:+ String "." e) = Some e.
Proof.
  intros He. induction p as [|c p IH].
  - simpl. apply extension_None in He. now rewrite He.
  - rewrite app_cons. simpl. now rewrite IH.
Qed.

(** A name with extension [e] is some [p.e]. *)
Lemma extension_Some (s e : string) :
  extension s = Some e -> exists p, s = p +:+ String "." e.
Proof.
  revert e. induction s as [|c s IH]; intros e; simpl; [discriminate|].
  destruct (extension s) as [e'|].
  - intros [= <-]. destruct (IH e' eq_refl) as [p ->]. now exists (String c p).
  - destruct (Ascii.eqb_spec c "."); [|discriminate].
    intros [= <-]. subst c. now exists "".
Qed.

Lemma endswith_dot_extension (s e : string) :
  has_dot e = false ->
  endswith s (String "." e) = true <-> extension s = Some e.
Proof.
  intros He. rewrite endswith_spec. split.
  - intros [p ->]. now apply extension_app_dot.
  - apply extension_Some.
Qed.

End StrFacts.

(** ** Eligibility (line 104) against the extension of the name *)

Lemma endswith_dot_eqb (s e : string) :
  Str.has_dot e = false ->
  Str.endswith s (String "." e) =
  match Str.extension s with Some e' => String.eqb e' e | None => false end.
Proof.
  intros He. apply eq_true_iff_eq.
  rewrite (StrFacts.endswith_dot_extension s e He).
  destruct (Str.extension s) as [e'|]; [|split; discriminate].
  rewrite String.eqb_eq. split; congruence.
Qed.

Lemma eligible_has_image_extension (name : string) :
  eligible name = has_image_extension name.
Proof.
  unfold eligible, has_image_extension, Str.endswith_any, image_suffixes,
    image_extensions.
  cbn [existsb].
  rewrite !endswith_dot_eqb by reflexivity.
  rewrite StrFacts.extension_lower.
  destruct (Str.extension name); reflexivity.
Qed.

(** ** The monad and the loop *)

Section Loop.
Context {E : Extern}.

Lemma for_each_cons (x : string) (l : list string) (body : string -> M E unit)
    (w : World E) :
  Py.for_each (x :: l) body w =
  match body x w with
  | (Return _, w') => Py.for_each l body w'
  | (Raise e, w') => (Raise e, w')
  end.
Proof. reflexivity. Qed.

Lemma for_each_app (l1 l2 : list string) (body : string -> M E unit) (w : World E) :
  Py.for_each (l1 ++ l2) body w =
  match Py.for_each l1 body w with
  | (Return _, w') => Py.for_each l2 body w'
  | (Raise e, w') => (Raise e, w')
  end.
Proof.
  revert w. induction l1 as [|x l1 IH]; intros w; [reflexivity|].
  rewrite <- app_comm_cons, !for_each_cons.
  destruct (body x w) as [[[]|e] w']; [apply IH | reflexivity].
Qed.

(** A loop whose body never raises never raises. *)
Lemma for_each_returns (l : list string) (body : string -> M E unit) :
  (forall x w, fst (body x w) = Return tt) ->
  forall w, fst (Py.for_each l body w) = Return tt.
Proof.
  intros Hbody. induction l as [|x l IH]; intros w; [reflexivity|].
  rewrite for_each_cons. specialize (Hbody x w).
  destruct (body x w) as [[[]|e] w']; [apply IH | discriminate].
Qed.

Context {Args : Type}.
Variables (folder_path : string) (cls : filter_class E Args) (filter_args : Args).

Lemma guarded_returns (filename : string) (w : World E) :
  fst (guarded folder_path cls filter_args filename w) = Return tt.
Proof.
  unfold guarded, try_except.
  destruct (attempt folder_path cls filter_args filename w) as [[[]|e] w'];
    reflexivity.
Qed.

Lemma loop_body_returns (filename : string) (w : World E) :
  fst (loop_body folder_path cls filter_args filename w) = Return tt.
Proof.
  unfold loop_body. destruct (eligible filename);
    [apply guarded_returns | reflexivity].
Qed.

Lemma loop_body_cases (filename : string) (w : World E) :
  loop_body folder_path cls filter_args filename w =
  if has_image_extension filename
  then guarded folder_path cls filter_args filename w
  else (Return tt, w).
Proof.
  unfold loop_body. rewrite eligible_has_image_extension.
  destruct (has_image_extension filename); reflexivity.
Qed.

Lemma for_each_filter (names : list string) (w : World E) :
  Py.for_each names (loop_body folder_path cls filter_args) w =
  Py.for_each (List.filter has_image_extension names)
    (guarded folder_path cls filter_args) w.
Proof.
  revert w. induction names as [|x names IH]; intros w; [reflexivity|].
  rewrite for_each_cons, loop_body_cases. simpl List.filter.
  destruct (has_image_extension x).
  - rewrite for_each_cons.
    destruct (guarded folder_path cls filter_args x w) as [[[]|e] w'];
      [apply IH | reflexivity].
  - apply IH.
Qed.

End Loop.

(** ** One file through [GausianBlur] *)

Section Blur.
Context {E : Extern}.
Variables (folder_path : string) (k : Z).

(** The three steps of the [try] block, call by call. *)
Lemma attempt_GausianBlur (filename : string) (w : World E) :
  let file_path := os_path_join E folder_path filename in
  let output := os_path_join E folder_path ("processed_" +:+ filename) in
  let w1 := Py.emit (Call_imread file_path) w in
  attempt folder_path (GausianBlur_class E) k filename w =
  match cv2_imread E (fs w) file_path with
  | None => (Raise (not_found file_path), w1)
  | Some img =>
      let w2 := Py.emit (Call_GaussianBlur (Some img) (k, k) 0) w1 in
      match cv2_GaussianBlur E (Some img) (k, k) 0 with
      | inl e => (Raise e, w2)
      | inr out =>
          let w3 := Py.emit (Call_imwrite output (Some out)) w2 in
          match cv2_imwrite E (fs w) output (Some out) with
          | (inl e, f) => (Raise e, Py.with_fs f w3)
          | (inr _, f) => (Return tt, Py.with_fs f w3)
          end
      end
  end.
Proof.
  cbv zeta. unfold attempt, bind. cbn [new process save_image GausianBlur_class].
  unfold GausianBlur.__init__, ImageProcessor.__init__, bind, Py.imread.
  cbn [fs Py.emit ImageProcessor.image].
  destruct (cv2_imread E (fs w) _) as [img|]; [|reflexivity].
  unfold ret at 1 2. unfold GausianBlur.process, bind, Py.GaussianBlur.
  cbn [GausianBlur.image GausianBlur.super GausianBlur.kernel ImageProcessor.image].
  destruct (cv2_GaussianBlur E (Some img) (k, k) 0) as [e|out]; [reflexivity|].
  cbn [lift_sum]. unfold ret at 1 2.
  unfold GausianBlur.save_image, ImageProcessor.save_image, bind, Py.imwrite.
  cbn [GausianBlur.super GausianBlur.kernel ImageProcessor.image fs Py.emit].
  destruct (cv2_imwrite E (fs w) _ (Some out)) as [[e|b] f]; reflexivity.
Qed.

End Blur.

(** ** The batch runner with any filter class *)

Section Batch.
Context {E : Extern} {Args : Type}.
Variables (folder_path : string) (cls : filter_class E Args) (filter_args : Args).

Lemma read_image_from_directory_listed (w : World E) (names : list string) :
  os_listdir E (fs w) folder_path = inr names ->
  read_image_from_directory folder_path cls filter_args w =
  Py.for_each names (loop_body folder_path cls filter_args)
    (Py.emit (Call_listdir folder_path) w).
Proof.
  intros H. unfold read_image_from_directory, bind, Py.listdir.
  cbn [fs Py.emit]. rewrite H. reflexivity.
Qed.

Lemma read_image_from_directory_unlisted (w : World E) (e : exn) :
  os_listdir E (fs w) folder_path = inl e ->
  read_image_from_directory folder_path cls filter_args w =
  (Raise e, Py.emit (Call_listdir folder_path) w).
Proof.
  intros H. unfold read_image_from_directory, bind, Py.listdir.
  cbn [fs Py.emit]. rewrite H. reflexivity.
Qed.

(** C1, as the code has it. Whatever a file's [try] block raises is caught
    in the loop body.  No failure entry is stored or returned: all that is
    left of the exception is one line printed on standard output,
    "Failed to process <filename>: <reason>", which names the file by its
    name in the directory, not by its path; the turn changes nothing else in
    the world the exception left.  The loop goes on with the files that
    follow, and the call of the batch runner returns: when the directory can
    be listed no exception leaves it. *)
Theorem batch_contains_file_errors (w : World E) (names : list string) :
  os_listdir E (fs w) folder_path = inr names ->
  fst (read_image_from_directory folder_path cls filter_args w) = Return tt /\
  forall before filename after e w0 w1,
    names = (before ++ filename :: after)%list ->
    eligible filename = true ->
    Py.for_each before (loop_body folder_path cls filter_args)
      (Py.emit (Call_listdir folder_path) w) = (Return tt, w0) ->
    attempt folder_path cls filter_args filename w0 = (Raise e, w1) ->
    let reported :=
      mk_World (fs w1) (tk_folder_path w1) (tk_kernel w1)
        (trace w1 ++
         [Call_print ("Failed to process " +:+ filename +:+ ": " +:+ exn_str e)])%list
    in
    loop_body folder_path cls filter_args filename w0 = (Return tt, reported) /\
    read_image_from_directory folder_path cls filter_args w =
      Py.for_each after (loop_body folder_path cls filter_args) reported.
Proof.
  intros Hls. rewrite (read_image_from_directory_listed w names Hls). split.
  - apply for_each_returns. intros x w'. apply loop_body_returns.
  - intros before filename after e w0 w1 -> Hel Hbefore Hraise reported.
    assert (Hbody : loop_body folder_path cls filter_args filename w0 =
              (Return tt, reported)).
    { unfold loop_body. rewrite Hel. unfold guarded, try_except.
      rewrite Hraise. reflexivity. }
    split; [exact Hbody|].
    rewrite for_each_app, Hbefore, for_each_cons, Hbody. reflexivity.
Qed.

(** C4. An entry of the listing goes through the [try] block exactly when
    the extension of its name, compared without regard to case, is png, jpg,
    jpeg or bmp; any other entry leaves the world as it is, so nothing is
    printed for it, and the loop over the listing is the loop over its
    entries with such an extension. *)
Theorem entries_selected_by_extension (w : World E) (names : list string)
    (filename : string) :
  eligible filename = has_image_extension filename /\
  loop_body folder_path cls filter_args filename w =
    (if has_image_extension filename
     then guarded folder_path cls filter_args filename w
     else (Return tt, w)) /\
  Py.for_each names (loop_body folder_path cls filter_args) w =
    Py.for_each (List.filter has_image_extension names)
      (guarded folder_path cls filter_args) w.
Proof.
  split; [apply eligible_has_image_extension|].
  split; [apply loop_body_cases | apply for_each_filter].
Qed.

(** C6. When the directory cannot be listed the error of [os.listdir]
    leaves the batch runner at once: the only call made is the listing, no
    file is read or written, nothing is printed and the disk is as it was. *)
Theorem unlistable_directory_raises (w : World E) (e : exn) :
  os_listdir E (fs w) folder_path = inl e ->
  read_image_from_directory folder_path cls filter_args w =
    (Raise e, Py.emit (Call_listdir folder_path) w) /\
  fs (Py.emit (Call_listdir folder_path) w) = fs w /\
  trace (Py.emit (Call_listdir folder_path) w) =
    (trace w ++ [Call_listdir folder_path])%list.
Proof.
  intros H. split; [|split; reflexivity].
  now apply read_image_from_directory_unlisted.
Qed.

End Batch.

(** ** The batch runner with [GausianBlur] *)

Ltac log_facts :=
  repeat split;
  solve [ reflexivity
        | apply sublist_nil_l
        | repeat constructor ].

Section BlurBatch.
Context {E : Extern}.
Variables (folder_path : string) (k : Z).

(** What one turn of the loop adds to the log: at most one line, naming the
    file of the turn, at most one write, to the output path of that file,
    and no window size other than [(k, k)]. *)
Lemma loop_body_GausianBlur_log (filename : string) (w : World E) :
  exists w' new (failed : list (string * exn)) (written : list string),
    loop_body folder_path (GausianBlur_class E) k filename w = (Return tt, w') /\
    trace w' = (trace w ++ new)%list /\
    sublist (map fst failed) [filename] /\
    sublist written [filename] /\
    prints new = map line_of failed /\
    writes new = map (output_path E folder_path) written /\
    Forall (eq (k, k)) (ksizes new).
Proof.
  unfold loop_body. destruct (eligible filename).
  2:{ exists w, [], [], []. rewrite app_nil_r. log_facts. }
  unfold guarded, try_except. rewrite attempt_GausianBlur. cbv zeta.
  destruct (cv2_imread E (fs w) _) as [img|].
  2:{ eexists _, [_; _], [(filename, _)], [].
      split; [reflexivity|]. cbn. rewrite <- !app_assoc. log_facts. }
  destruct (cv2_GaussianBlur E (Some img) (k, k) 0) as [e|out].
  { eexists _, [_; _; _], [(filename, e)], [].
    split; [reflexivity|]. cbn. rewrite <- !app_assoc. log_facts. }
  destruct (cv2_imwrite E (fs w) _ (Some out)) as [[e|b] f].
  - eexists _, [_; _; _; _], [(filename, e)], [filename].
    split; [reflexivity|]. cbn. rewrite <- !app_assoc. log_facts.
  - eexists _, [_; _; _], [], [filename].
    split; [reflexivity|]. cbn. rewrite <- !app_assoc. log_facts.
Qed.

Lemma for_each_GausianBlur_log (names : list string) (w : World E) :
  exists w' new (failed : list (string * exn)) (written : list string),
    Py.for_each names (loop_body folder_path (GausianBlur_class E) k) w =
      (Return tt, w') /\
    trace w' = (trace w ++ new)%list /\
    sublist (map fst failed) names /\
    sublist written names /\
    prints new = map line_of failed /\
    writes new = map (output_path E folder_path) written /\
    Forall (eq (k, k)) (ksizes new).
Proof.
  revert w. induction names as [|x names IH]; intros w.
  - exists w, [], [], []. rewrite app_nil_r.
    repeat split; try reflexivity; constructor.
  - destruct (loop_body_GausianBlur_log x w)
      as (w1 & new1 & failed1 & written1 & Hrun1 & Htr1 & Hf1 & Hw1 & Hp1 & Hwr1 & Hk1).
    destruct (IH w1)
      as (w2 & new2 & failed2 & written2 & Hrun2 & Htr2 & Hf2 & Hw2 & Hp2 & Hwr2 & Hk2).
    exists w2, (new1 ++ new2)%list, (failed1 ++ failed2)%list,
      (written1 ++ written2)%list.
    rewrite for_each_cons, Hrun1, Hrun2, Htr2, Htr1, app_assoc.
    unfold prints, writes, ksizes in *. rewrite !omap_app, !map_app.
    rewrite Hp1, Hp2, Hwr1, Hwr2.
    repeat split.
    + change (x :: names) with ([x] ++ names)%list. now apply sublist_app.
    + change (x :: names) with ([x] ++ names)%list. now apply sublist_app.
    + apply Forall_app. split; assumption.
Qed.

End BlurBatch.

Section BlurBatchClaims.
Context {E : Extern}.
Variables (folder_path : string) (k : Z).

(** C5, as the code has it. The batch runner returns [None]: no aggregate
    reaches the caller.  What a run leaves is its side effects, in the order
    of the listing: the lines printed are the failure lines of a
    subsequence of the listing, and the paths written are the output paths
    of a subsequence of the listing. *)
Theorem batch_reports_by_side_effects (w : World E) (names : list string) :
  os_listdir E (fs w) folder_path = inr names ->
  exists w' (failed : list (string * exn)) (written : list string),
    read_image_from_directory folder_path (GausianBlur_class E) k w =
      (Return tt, w') /\
    sublist (map fst failed) names /\
    sublist written names /\
    prints (trace w') = (prints (trace w) ++ map line_of failed)%list /\
    writes (trace w') =
      (writes (trace w) ++ map (output_path E folder_path) written)%list.
Proof.
  intros Hls. rewrite (read_image_from_directory_listed _ _ _ w names Hls).
  destruct (for_each_GausianBlur_log folder_path k names
              (Py.emit (Call_listdir folder_path) w))
    as (w' & new & failed & written & Hrun & Htr & Hf & Hw & Hp & Hwr & _).
  exists w', failed, written. rewrite Hrun, Htr. cbn [trace Py.emit].
  unfold prints, writes in *. rewrite !omap_app, Hp, Hwr. cbn [omap].
  rewrite !app_nil_r. auto.
Qed.


End BlurBatchClaims.

(** ** The callback of the button *)

Section Callback.
Context {E : Extern}.

Lemma apply_gaussian_blur_rejects (w : World E) (e : exn) :
  py_int E (tk_kernel w) = inl e -> apply_gaussian_blur w = (Raise e, w).
Proof.
  intros H. unfold apply_gaussian_blur, bind, Py.StringVar_get, Py.int.
  rewrite H. reflexivity.
Qed.

Lemma apply_gaussian_blur_int (w : World E) (k : Z) :
  py_int E (tk_kernel w) = inr k ->
  apply_gaussian_blur w =
  match read_image_from_directory (tk_folder_path w) (GausianBlur_class E) k w with
  | (Return _, w') => (Return tt, Py.emit success w')
  | (Raise e, w') => (Raise e, w')
  end.
Proof.
  intros H. unfold apply_gaussian_blur, bind, Py.StringVar_get, Py.int.
  rewrite H. cbn [lift_sum ret].
  destruct (read_image_from_directory _ _ _ w) as [[[]|e] w']; reflexivity.
Qed.

(** With an integer in the field the batch runner is called: the listing is
    the first call, and each [cv2.GaussianBlur] of the run is handed the
    window [(k, k)]. *)
Lemma apply_gaussian_blur_runs (w : World E) (k : Z) :
  py_int E (tk_kernel w) = inr k ->
  exists r w' new,
    apply_gaussian_blur w = (r, w') /\
    trace w' = (trace w ++ Call_listdir (tk_folder_path w) :: new)%list /\
    Forall (eq (k, k)) (ksizes new) /\
    (forall names, os_listdir E (fs w) (tk_folder_path w) = inr names ->
       r = Return tt /\ exists mid, new = (mid ++ [success])%list).
Proof.
  intros Hint. rewrite (apply_gaussian_blur_int w k Hint).
  destruct (os_listdir E (fs w) (tk_folder_path w)) as [e|names] eqn:Hls.
  - rewrite (read_image_from_directory_unlisted _ _ _ w e Hls).
    exists (Raise e), (Py.emit (Call_listdir (tk_folder_path w)) w), [].
    split; [reflexivity|]. split; [reflexivity|]. split; [constructor|].
    discriminate.
  - rewrite (read_image_from_directory_listed _ _ _ w names Hls).
    destruct (for_each_GausianBlur_log (tk_folder_path w) k names
                (Py.emit (Call_listdir (tk_folder_path w)) w))
      as (w' & new & failed & written & Hrun & Htr & _ & _ & _ & _ & Hk).
    rewrite Hrun. exists (Return tt), (Py.emit success w'), (new ++ [success])%list.
    split; [reflexivity|]. split; [|split].
    + cbn [trace Py.emit] in *. rewrite Htr, <- !app_assoc. reflexivity.
    + unfold ksizes in *. rewrite omap_app. cbn [omap success].
      now rewrite app_nil_r.
    + intros names' _. split; [reflexivity | now exists new].
Qed.

(** C7, as the code has it. No step checks or rounds the kernel size: the
    integer [k] that [int] returns, even or odd, is stored unchanged by
    [GausianBlur.__init__], and when the directory can be listed the callback
    runs the batch to its end and shows the success box, every call of
    [cv2.GaussianBlur] having been handed the window [(k, k)]. *)
Theorem kernel_size_passed_unchanged (w : World E) (k : Z) (names : list string) :
  py_int E (tk_kernel w) = inr k ->
  os_listdir E (fs w) (tk_folder_path w) = inr names ->
  (forall filename (w0 w1 : World E) self,
     GausianBlur.__init__ filename k w0 = (Return self, w1) ->
     GausianBlur.kernel self = k) /\
  exists w' mid,
    apply_gaussian_blur w = (Return tt, w') /\
    trace w' =
      (trace w ++ Call_listdir (tk_folder_path w) :: mid ++ [success])%list /\
    Forall (eq (k, k)) (ksizes mid).
Proof.
  intros Hint Hls. split.
  - intros filename w0 w1 self.
    unfold GausianBlur.__init__, ImageProcessor.__init__, bind, Py.imread.
    cbn [ImageProcessor.image].
    destruct (cv2_imread E _ filename); [|discriminate].
    intros [= <- _]. reflexivity.
  - destruct (apply_gaussian_blur_runs w k Hint)
      as (r & w' & new & Hrun & Htr & Hk & Hend).
    destruct (Hend names Hls) as (-> & mid & ->).
    exists w', mid. split; [exact Hrun|]. split; [exact Htr|].
    unfold ksizes in Hk. rewrite omap_app in Hk.
    apply Forall_app in Hk. tauto.
Qed.

End Callback.

(** ** [cv2.GaussianBlur] as the specification describes it *)

Lemma build_shape (a : ndarray) (f : nat -> nat -> nat -> Z) :
  shape (cv2.build a f) = shape a /\
  length (data (cv2.build a f)) = (rows a * cols a * channels a)%nat.
Proof.
  split; [reflexivity|]. unfold cv2.build. cbn [data].
  now rewrite length_map, length_seq.
Qed.

Lemma GaussianBlur_shape (g : Z -> Z -> list Z) (img : ndarray) (kx ky sigma : Z) :
  cv2.valid_ksize kx = true -> cv2.valid_ksize ky = true ->
  exists out,
    cv2.GaussianBlur g (Some img) (kx, ky) sigma = inr out /\
    shape out = shape img /\
    length (data out) = (rows img * cols img * channels img)%nat.
Proof.
  intros Hx Hy. unfold cv2.GaussianBlur. cbn [fst snd]. rewrite Hx, Hy.
  eexists. split; [reflexivity|]. unfold cv2.blur_y.
  destruct (build_shape (cv2.blur_x (g kx sigma) img)
              (fun y x c =>
                 cv2.convolve (g ky sigma)
                   (fun p =>
                      cv2.at_ (cv2.blur_x (g kx sigma) img)
                        (cv2.reflect p (rows (cv2.blur_x (g kx sigma) img))) x c) y))
    as [Hs Hl].
  split; [exact Hs | exact Hl].
Qed.

(** ** The constructors and [process] *)

Section Classes.
Context {E : Extern}.

(** C9. A constructor either returns an object whose [image] is the array
    [cv2.imread] decoded, or raises the [ValueError] of line 32; it never
    returns an object whose [image] is [None].  The same holds for
    [GausianBlur], whose constructor runs the one of [ImageProcessor]. *)
Theorem constructor_holds_decoded_image (filename : string) (kernel : Z)
    (w : World E) :
  let w1 := Py.emit (Call_imread filename) w in
  match cv2_imread E (fs w) filename with
  | Some img =>
      ImageProcessor.__init__ filename w =
        (Return (ImageProcessor.mk (Some img)), w1) /\
      GausianBlur.__init__ filename kernel w =
        (Return (GausianBlur.mk (ImageProcessor.mk (Some img)) kernel), w1)
  | None =>
      ImageProcessor.__init__ filename w = (Raise (not_found filename), w1) /\
      GausianBlur.__init__ filename kernel w = (Raise (not_found filename), w1)
  end.
Proof.
  cbv zeta.
  unfold GausianBlur.__init__, ImageProcessor.__init__, bind, Py.imread.
  cbn [fs Py.emit ImageProcessor.image].
  destruct (cv2_imread E (fs w) filename); split; reflexivity.
Qed.

(** C10. The base class can be constructed: [ImageProcessor(filename)]
    returns an object when the image loads.  The error of the missing filter
    comes when [process] is called on that object: in any world the call
    raises [ValueError('Subclasses should implement this!')] and changes
    nothing. *)
Theorem base_process_raises (filename : string) (w w' : World E)
    (self : instance (ImageProcessor_class E)) :
  new (ImageProcessor_class E) filename tt w = (Return self, w') ->
  forall w'' : World E,
    process (ImageProcessor_class E) self w'' =
      (Raise (mk_exn ValueError "Subclasses should implement this!"), w'').
Proof. intros _ w''. reflexivity. Qed.

(** C2. With [cv2.GaussianBlur] as the specification describes it, and a
    kernel size that is positive and odd, [process] returns, and the image
    the object then holds has the rows, columns and channels of the one it
    held, with a buffer of that many samples. *)
Theorem GausianBlur_process_keeps_shape (g : Z -> Z -> list Z)
    (self : GausianBlur.obj) (img : ndarray) (w : World E) :
  cv2_GaussianBlur E = cv2.GaussianBlur g ->
  GausianBlur.image self = Some img ->
  0 < GausianBlur.kernel self ->
  Z.odd (GausianBlur.kernel self) = true ->
  exists out w',
    GausianBlur.process self w =
      (Return (GausianBlur.mk (ImageProcessor.mk (Some out)) (GausianBlur.kernel self)),
       w') /\
    shape out = shape img /\
    length (data out) = (rows img * cols img * channels img)%nat.
Proof.
  intros Hcv Himg Hpos Hodd.
  assert (Hvalid : cv2.valid_ksize (GausianBlur.kernel self) = true).
  { unfold cv2.valid_ksize. rewrite Hodd, andb_true_r. now apply Z.ltb_lt. }
  destruct (GaussianBlur_shape g img _ _ 0 Hvalid Hvalid) as (out & Hout & Hs & Hl).
  exists out. eexists. split; [|split; assumption].
  unfold GausianBlur.process, bind, Py.GaussianBlur.
  rewrite Himg, Hcv, Hout. reflexivity.
Qed.

End Classes.

(** ** One turn of the loop with [GausianBlur], case by case *)

Section BlurTurn.
Context {E : Extern}.
Variables (folder_path : string) (k : Z).

Lemma loop_body_eligible {Args : Type} (cls : filter_class E Args)
    (filter_args : Args) (filename : string) (w : World E) :
  eligible filename = true ->
  loop_body folder_path cls filter_args filename w =
  match attempt folder_path cls filter_args filename w with
  | (Return _, w') => (Return tt, w')
  | (Raise e, w') => (Return tt, Py.emit (Call_print (failure_line filename e)) w')
  end.
Proof.
  intros Hel. unfold loop_body. rewrite Hel. unfold guarded, try_except.
  destruct (attempt folder_path cls filter_args filename w) as [[[]|e] w'];
    reflexivity.
Qed.

Lemma loop_body_ineligible {Args : Type} (cls : filter_class E Args)
    (filter_args : Args) (filename : string) (w : World E) :
  eligible filename = false ->
  loop_body folder_path cls filter_args filename w = (Return tt, w).
Proof. intros Hel. unfold loop_body. rewrite Hel. reflexivity. Qed.

(** X1. A write that [cv2.imwrite] reports as failed by answering [False]
    is not reported by the program: [save_image] drops the answer, the turn
    completes and nothing is printed. *)
Theorem unwritten_output_not_reported (filename : string) (w : World E)
    (img out : ndarray) (f : FS E) :
  eligible filename = true ->
  cv2_imread E (fs w) (os_path_join E folder_path filename) = Some img ->
  cv2_GaussianBlur E (Some img) (k, k) 0 = inr out ->
  cv2_imwrite E (fs w) (os_path_join E folder_path ("processed_" +:+ filename))
    (Some out) = (inr false, f) ->
  exists w',
    loop_body folder_path (GausianBlur_class E) k filename w = (Return tt, w') /\
    prints (trace w') = prints (trace w) /\
    fs w' = f.
Proof.
  intros Hel Hread Hblur Hwrite.
  rewrite (loop_body_eligible _ _ _ _ Hel), attempt_GausianBlur. cbv zeta.
  rewrite Hread, Hblur, Hwrite. eexists. split; [reflexivity|].
  cbn [trace fs Py.emit Py.with_fs]. unfold prints. rewrite !omap_app.
  cbn [omap]. rewrite !app_nil_r. split; reflexivity.
Qed.

(** X2. A file that [cv2.imread] cannot decode costs one read and one
    printed line, which carries the joined path in its reason; the blur and
    the write are not called and the disk is untouched. *)
Theorem undecodable_file_is_reported (filename : string) (w : World E) :
  eligible filename = true ->
  cv2_imread E (fs w) (os_path_join E folder_path filename) = None ->
  loop_body folder_path (GausianBlur_class E) k filename w =
    (Return tt,
     mk_World (fs w) (tk_folder_path w) (tk_kernel w)
       (trace w ++
        [Call_imread (os_path_join E folder_path filename);
         Call_print
           ("Failed to process " +:+ filename +:+ ": Error: Image " +:+
            os_path_join E folder_path filename +:+ " not found!")])%list).
Proof.
  intros Hel Hread.
  rewrite (loop_body_eligible _ _ _ _ Hel), attempt_GausianBlur. cbv zeta.
  rewrite Hread. unfold Py.emit. cbn [fs tk_folder_path tk_kernel trace].
  rewrite <- app_assoc. reflexivity.
Qed.

(** X3. When [cv2.GaussianBlur] raises for a decoded image, the turn prints
    the text of that error and stops there: [cv2.imwrite] is not called and
    the disk is untouched. *)
Theorem unblurred_image_is_not_written (filename : string) (w : World E)
    (img : ndarray) (e : exn) :
  eligible filename = true ->
  cv2_imread E (fs w) (os_path_join E folder_path filename) = Some img ->
  cv2_GaussianBlur E (Some img) (k, k) 0 = inl e ->
  loop_body folder_path (GausianBlur_class E) k filename w =
    (Return tt,
     mk_World (fs w) (tk_folder_path w) (tk_kernel w)
       (trace w ++
        [Call_imread (os_path_join E folder_path filename);
         Call_GaussianBlur (Some img) (k, k) 0;
         Call_print ("Failed to process " +:+ filename +:+ ": " +:+ exn_str e)])%list).
Proof.
  intros Hel Hread Hblur.
  rewrite (loop_body_eligible _ _ _ _ Hel), attempt_GausianBlur. cbv zeta.
  rewrite Hread, Hblur. unfold Py.emit. cbn [fs tk_folder_path tk_kernel trace].
  rewrite <- !app_assoc. reflexivity.
Qed.

(** X16. When [cv2.imwrite] raises, the turn prints the text of that error
    after the read, the blur and the write attempt, and the disk is whatever
    the failed call left. *)
Theorem write_error_is_reported (filename : string) (w : World E)
    (img out : ndarray) (e : exn) (f : FS E) :
  eligible filename = true ->
  cv2_imread E (fs w) (os_path_join E folder_path filename) = Some img ->
  cv2_GaussianBlur E (Some img) (k, k) 0 = inr out ->
  cv2_imwrite E (fs w) (os_path_join E folder_path ("processed_" +:+ filename))
    (Some out) = (inl e, f) ->
  loop_body folder_path (GausianBlur_class E) k filename w =
    (Return tt,
     mk_World f (tk_folder_path w) (tk_kernel w)
       (trace w ++
        [Call_imread (os_path_join E folder_path filename);
         Call_GaussianBlur (Some img) (k, k) 0;
         Call_imwrite (os_path_join E folder_path ("processed_" +:+ filename))
           (Some out);
         Call_print ("Failed to process " +:+ filename +:+ ": " +:+ exn_str e)])%list).
Proof.
  intros Hel Hread Hblur Hwrite.
  rewrite (loop_body_eligible _ _ _ _ Hel), attempt_GausianBlur. cbv zeta.
  rewrite Hread, Hblur, Hwrite. unfold Py.emit, Py.with_fs.
  cbn [fs tk_folder_path tk_kernel trace]. rewrite <- !app_assoc. reflexivity.
Qed.

(** X4. What a completed [try] block hands to [cv2.imwrite] is what
    [cv2.GaussianBlur], called with the square window [(k, k)] and sigma 0,
    returned for the array [cv2.imread] decoded from the source file; these
    three calls, in this order, are all the turn does. *)
Theorem written_image_is_blurred_source (filename : string) (w w' : World E) :
  attempt folder_path (GausianBlur_class E) k filename w = (Return tt, w') ->
  exists img out,
    cv2_imread E (fs w) (os_path_join E folder_path filename) = Some img /\
    cv2_GaussianBlur E (Some img) (k, k) 0 = inr out /\
    trace w' =
      (trace w ++
       [Call_imread (os_path_join E folder_path filename);
        Call_GaussianBlur (Some img) (k, k) 0;
        Call_imwrite (os_path_join E folder_path ("processed_" +:+ filename))
          (Some out)])%list.
Proof.
  rewrite attempt_GausianBlur. cbv zeta.
  destruct (cv2_imread E (fs w) _) as [img|]; [|discriminate].
  destruct (cv2_GaussianBlur E (Some img) (k, k) 0) as [e|out] eqn:Hblur;
    [discriminate|].
  destruct (cv2_imwrite E (fs w) _ (Some out)) as [[e|b] f]; [discriminate|].
  intros [= <-]. exists img, out. split; [reflexivity|]. split; [exact Hblur|].
  cbn [trace Py.emit Py.with_fs]. rewrite <- !app_assoc. reflexivity.
Qed.

(** What a turn adds to the log and what it leaves alone. *)
Lemma loop_body_GausianBlur_turn (filename : string) (w : World E) :
  exists w' new (failed : list (string * exn)) (written : list string),
    loop_body folder_path (GausianBlur_class E) k filename w = (Return tt, w') /\
    trace w' = (trace w ++ new)%list /\
    tk_folder_path w' = tk_folder_path w /\
    tk_kernel w' = tk_kernel w /\
    prints new = map line_of failed /\
    writes new = map (output_path E folder_path) written /\
    reads new = map (os_path_join E folder_path) (List.filter eligible [filename]) /\
    (forall n, In n (List.filter eligible [filename]) ->
               In n (map fst failed) \/ In n written) /\
    (writes new = [] -> fs w' = fs w).
Proof.
  cbn [List.filter]. destruct (eligible filename) eqn:Hel.
  2:{ exists w, [], [], []. rewrite (loop_body_ineligible _ _ _ _ Hel), app_nil_r.
      repeat split; try reflexivity. intros n []. }
  rewrite (loop_body_eligible _ _ _ _ Hel), attempt_GausianBlur. cbv zeta.
  destruct (cv2_imread E (fs w) _) as [img|].
  2:{ eexists _, [_; _], [(filename, _)], [].
      split; [reflexivity|]. cbn. rewrite <- !app_assoc.
      repeat split; try reflexivity. intros n Hn. left. exact Hn. }
  destruct (cv2_GaussianBlur E (Some img) (k, k) 0) as [e|out].
  { eexists _, [_; _; _], [(filename, e)], [].
    split; [reflexivity|]. cbn. rewrite <- !app_assoc.
    repeat split; try reflexivity. intros n Hn. left. exact Hn. }
  destruct (cv2_imwrite E (fs w) _ (Some out)) as [[e|b] f].
  - eexists _, [_; _; _; _], [(filename, e)], [filename].
    split; [reflexivity|]. cbn. rewrite <- !app_assoc.
    repeat split; try reflexivity; [intros n Hn; left; exact Hn | discriminate].
  - eexists _, [_; _; _], [], [filename].
    split; [reflexivity|]. cbn. rewrite <- !app_assoc.
    repeat split; try reflexivity; [intros n Hn; right; exact Hn | discriminate].
Qed.

Lemma for_each_GausianBlur_turns (names : list string) (w : World E) :
  exists w' new (failed : list (string * exn)) (written : list string),
    Py.for_each names (loop_body folder_path (GausianBlur_class E) k) w =
      (Return tt, w') /\
    trace w' = (trace w ++ new)%list /\
    tk_folder_path w' = tk_folder_path w /\
    tk_kernel w' = tk_kernel w /\
    prints new = map line_of failed /\
    writes new = map (output_path E folder_path) written /\
    reads new = map (os_path_join E folder_path) (List.filter eligible names) /\
    (forall n, In n (List.filter eligible names) ->
               In n (map fst failed) \/ In n written) /\
    (writes new = [] -> fs w' = fs w).
Proof.
  revert w. induction names as [|x names IH]; intros w.
  - exists w, [], [], []. rewrite app_nil_r.
    repeat split; try reflexivity. intros n [].
  - destruct (loop_body_GausianBlur_turn x w)
      as (w1 & new1 & failed1 & written1 & Hrun1 & Htr1 & Hfp1 & Hk1 & Hp1 & Hw1
          & Hr1 & Hacc1 & Hfs1).
    destruct (IH w1)
      as (w2 & new2 & failed2 & written2 & Hrun2 & Htr2 & Hfp2 & Hk2 & Hp2 & Hw2
          & Hr2 & Hacc2 & Hfs2).
    exists w2, (new1 ++ new2)%list, (failed1 ++ failed2)%list,
      (written1 ++ written2)%list.
    rewrite for_each_cons, Hrun1, Hrun2, Htr2, Htr1, app_assoc.
    change (x :: names) with ([x] ++ names)%list. rewrite List.filter_app.
    unfold prints, writes, reads in *.
    rewrite !omap_app, !map_app, Hp1, Hp2, Hw1, Hw2, Hr1, Hr2.
    repeat split; try congruence.
    + intros n Hn. rewrite !in_app_iff. apply in_app_iff in Hn as [Hn|Hn].
      * destruct (Hacc1 n Hn); auto.
      * destruct (Hacc2 n Hn); auto.
    + intros Hnil. apply app_eq_nil in Hnil as [H1 H2].
      rewrite Hw2 in Hfs2. rewrite Hw1 in Hfs1.
      rewrite (Hfs2 H2). exact (Hfs1 H1).
Qed.

End BlurTurn.

(** ** The whole batch with [GausianBlur] *)

Section BlurBatchMore.
Context {E : Extern}.
Variables (folder_path : string) (k : Z).

(** X5. The batch reads exactly the eligible entries of the listing, each
    once, at its path in the scanned directory and in the order of the
    listing; entries without an image suffix are never opened. *)
Theorem batch_reads_eligible_entries (w : World E) (names : list string) :
  os_listdir E (fs w) folder_path = inr names ->
  reads (trace (snd (read_image_from_directory folder_path (GausianBlur_class E) k w))) =
  (reads (trace w) ++
   map (os_path_join E folder_path) (List.filter eligible names))%list.
Proof.
  intros Hls. rewrite (read_image_from_directory_listed _ _ _ w names Hls).
  destruct (for_each_GausianBlur_turns folder_path k names
              (Py.emit (Call_listdir folder_path) w))
    as (w' & new & failed & written & Hrun & Htr & _ & _ & _ & _ & Hr & _).
  rewrite Hrun. cbn [snd]. rewrite Htr. cbn [trace Py.emit].
  unfold reads in *. rewrite !omap_app, Hr. cbn [omap].
  now rewrite app_nil_r.
Qed.

(** X6. No eligible entry goes unaccounted for: after the batch, each
    eligible entry of the listing has a failure line printed for it or a
    write made at its output path. *)
Theorem every_eligible_entry_accounted (w : World E) (names : list string) :
  os_listdir E (fs w) folder_path = inr names ->
  exists w' (failed : list (string * exn)) (written : list string),
    read_image_from_directory folder_path (GausianBlur_class E) k w =
      (Return tt, w') /\
    prints (trace w') = (prints (trace w) ++ map line_of failed)%list /\
    writes (trace w') =
      (writes (trace w) ++ map (output_path E folder_path) written)%list /\
    forall n, In n names -> eligible n = true ->
              In n (map fst failed) \/ In n written.
Proof.
  intros Hls. rewrite (read_image_from_directory_listed _ _ _ w names Hls).
  destruct (for_each_GausianBlur_turns folder_path k names
              (Py.emit (Call_listdir folder_path) w))
    as (w' & new & failed & written & Hrun & Htr & _ & _ & Hp & Hw & _ & Hacc & _).
  exists w', failed, written. rewrite Hrun, Htr. cbn [trace Py.emit].
  unfold prints, writes in *. rewrite !omap_app, Hp, Hw. cbn [omap].
  rewrite !app_nil_r. repeat split.
  intros n Hn Hel. apply Hacc. apply List.filter_In. auto.
Qed.

End BlurBatchMore.

(** ** Batches in which no file gets past [process] *)

Section FailingBatch.
Context {E : Extern} {Args : Type}.
Variables (folder_path : string) (cls : filter_class E Args) (filter_args : Args).
Variable reject : ndarray -> exn.

(** Each [try] block raises the reason of [turn_failure] and touches neither
    the disk nor the lines and writes of the log. *)
Hypothesis attempt_fails :
  forall (filename : string) (w : World E),
    exists w',
      attempt folder_path cls filter_args filename w =
        (Raise (turn_failure reject (fs w) folder_path filename), w') /\
      fs w' = fs w /\
      prints (trace w') = prints (trace w) /\
      writes (trace w') = writes (trace w).

Lemma for_each_all_fail (names : list string) (w : World E) :
  exists w',
    Py.for_each names (loop_body folder_path cls filter_args) w = (Return tt, w') /\
    fs w' = fs w /\
    writes (trace w') = writes (trace w) /\
    prints (trace w') =
      (prints (trace w) ++
       map (fun n => failure_line n (turn_failure reject (fs w) folder_path n))
         (List.filter eligible names))%list.
Proof.
  revert w. induction names as [|x names IH]; intros w.
  - exists w. rewrite app_nil_r. repeat split.
  - rewrite for_each_cons. cbn [List.filter].
    destruct (eligible x) eqn:Hel.
    + rewrite (loop_body_eligible folder_path cls filter_args x w Hel).
      destruct (attempt_fails x w) as (w1 & -> & Hfs1 & Hp1 & Hw1).
      destruct (IH (Py.emit (Call_print
                      (failure_line x (turn_failure reject (fs w) folder_path x))) w1))
        as (w2 & Hrun & Hfs2 & Hw2 & Hp2).
      exists w2. split; [exact Hrun|].
      cbn [fs trace Py.emit] in Hfs2, Hw2, Hp2.
      unfold prints, writes in *. rewrite omap_app in Hw2, Hp2.
      cbn [omap] in Hw2, Hp2. rewrite app_nil_r in Hw2.
      rewrite Hfs2, Hw2, Hp2, Hfs1, Hp1, Hw1, <- app_assoc.
      repeat split.
    + rewrite (loop_body_ineligible folder_path cls filter_args x w Hel).
      apply IH.
Qed.

Lemma read_image_from_directory_all_fail (names : list string) (w : World E) :
  os_listdir E (fs w) folder_path = inr names ->
  exists w',
    read_image_from_directory folder_path cls filter_args w = (Return tt, w') /\
    fs w' = fs w /\
    writes (trace w') = writes (trace w) /\
    prints (trace w') =
      (prints (trace w) ++
       map (fun n => failure_line n (turn_failure reject (fs w) folder_path n))
         (List.filter eligible names))%list.
Proof.
  intros Hls. rewrite (read_image_from_directory_listed _ _ _ w names Hls).
  destruct (for_each_all_fail names (Py.emit (Call_listdir folder_path) w))
    as (w' & Hrun & Hfs & Hw & Hp).
  exists w'. split; [exact Hrun|].
  cbn [fs trace Py.emit] in Hfs, Hw, Hp.
  unfold prints, writes in *. rewrite omap_app in Hw, Hp.
  cbn [omap] in Hw, Hp. rewrite app_nil_r in Hw, Hp.
  repeat split; assumption.
Qed.

End FailingBatch.

Section FailingBatchClaims.
Context {E : Extern}.
Variable folder_path : string.

Lemma attempt_ImageProcessor (filename : string) (w : World E) :
  attempt folder_path (ImageProcessor_class E) tt filename w =
  (Raise (turn_failure (fun _ => not_implemented) (fs w) folder_path filename),
   Py.emit (Call_imread (os_path_join E folder_path filename)) w).
Proof.
  unfold attempt, bind, turn_failure.
  cbn [new process save_image ImageProcessor_class].
  unfold ImageProcessor.__init__, bind, Py.imread.
  cbn [fs Py.emit ImageProcessor.image].
  destruct (cv2_imread E (fs w) _) as [img|]; reflexivity.
Qed.

(** X7. A kernel size that [cv2.GaussianBlur] refuses for every image makes
    the whole batch a dry run: it returns, the disk is exactly as before,
    [cv2.imwrite] is never called, and one line is printed per eligible
    entry, with the refusal as the reason for the files that load. *)
Theorem refused_kernel_changes_nothing (k : Z) (reject : ndarray -> exn)
    (w : World E) (names : list string) :
  (forall img, cv2_GaussianBlur E (Some img) (k, k) 0 = inl (reject img)) ->
  os_listdir E (fs w) folder_path = inr names ->
  exists w',
    read_image_from_directory folder_path (GausianBlur_class E) k w =
      (Return tt, w') /\
    fs w' = fs w /\
    writes (trace w') = writes (trace w) /\
    prints (trace w') =
      (prints (trace w) ++
       map (fun n => failure_line n (turn_failure reject (fs w) folder_path n))
         (List.filter eligible names))%list.
Proof.
  intros Hrej Hls.
  apply (read_image_from_directory_all_fail folder_path (GausianBlur_class E) k
           reject); [|exact Hls].
  intros filename w0. rewrite attempt_GausianBlur. cbv zeta. unfold turn_failure.
  destruct (cv2_imread E (fs w0) _) as [img|].
  - rewrite Hrej. eexists. split; [reflexivity|].
    cbn [fs trace Py.emit]. unfold prints, writes. rewrite !omap_app.
    cbn [omap]. rewrite !app_nil_r. repeat split.
  - eexists. split; [reflexivity|].
    cbn [fs trace Py.emit]. unfold prints, writes. rewrite !omap_app.
    cbn [omap]. rewrite !app_nil_r. repeat split.
Qed.

(** X8. Handing the base class [ImageProcessor] to the batch runner writes
    nothing: every eligible entry ends in a printed line, "not found" when
    the image does not load and "Subclasses should implement this!" when it
    does, and the disk is exactly as before. *)
Theorem base_class_batch_only_reports (w : World E) (names : list string) :
  os_listdir E (fs w) folder_path = inr names ->
  exists w',
    read_image_from_directory folder_path (ImageProcessor_class E) tt w =
      (Return tt, w') /\
    fs w' = fs w /\
    writes (trace w') = writes (trace w) /\
    prints (trace w') =
      (prints (trace w) ++
       map (fun n =>
              failure_line n
                (turn_failure (fun _ => not_implemented) (fs w) folder_path n))
         (List.filter eligible names))%list.
Proof.
  intros Hls.
  apply (read_image_from_directory_all_fail folder_path (ImageProcessor_class E)
           tt (fun _ => not_implemented)); [|exact Hls].
  intros filename w0. rewrite attempt_ImageProcessor.
  eexists. split; [reflexivity|].
  cbn [fs trace Py.emit]. unfold prints, writes. rewrite !omap_app.
  cbn [omap]. rewrite !app_nil_r. repeat split.
Qed.

(** X9. A directory with no eligible entry, the empty directory among
    them, is a no-op for any filter class: the batch returns having only
    listed the directory. *)
Theorem batch_without_images_is_noop {Args : Type} (cls : filter_class E Args)
    (filter_args : Args) (w : World E) (names : list string) :
  os_listdir E (fs w) folder_path = inr names ->
  Forall (fun n => eligible n = false) names ->
  read_image_from_directory folder_path cls filter_args w =
    (Return tt, Py.emit (Call_listdir folder_path) w).
Proof.
  intros Hls Hnone. rewrite (read_image_from_directory_listed _ _ _ w names Hls).
  generalize (Py.emit (Call_listdir folder_path) w). clear Hls.
  induction Hnone as [|x names Hx _ IH]; intros w0; [reflexivity|].
  rewrite for_each_cons, (loop_body_ineligible folder_path cls filter_args x w0 Hx).
  apply IH.
Qed.

End FailingBatchClaims.

(** ** The kernel text and the disk *)

Lemma GaussianBlur_refuses (g : Z -> Z -> list Z) (img : ndarray) (k sigma : Z) :
  k <= 0 ->
  cv2.GaussianBlur g (Some img) (k, k) sigma = inl RefMore.ksize_error.
Proof.
  intros Hk. unfold cv2.GaussianBlur, cv2.valid_ksize. cbn [fst snd].
  destruct (Z.ltb_spec 0 k) as [Hpos|_]; [lia | reflexivity].
Qed.

Section KernelText.
Context {E : Extern}.

Lemma attempt_GausianBlur_refused (folder_path : string) (k : Z)
    (reject : ndarray -> exn) :
  (forall img, cv2_GaussianBlur E (Some img) (k, k) 0 = inl (reject img)) ->
  forall (filename : string) (w : World E),
  exists w',
    attempt folder_path (GausianBlur_class E) k filename w =
      (Raise (turn_failure reject (fs w) folder_path filename), w') /\
    fs w' = fs w /\
    prints (trace w') = prints (trace w) /\
    writes (trace w') = writes (trace w).
Proof.
  intros Hrej filename w. rewrite attempt_GausianBlur. cbv zeta.
  unfold turn_failure.
  destruct (cv2_imread E (fs w) _) as [img|]; [rewrite Hrej|];
    (eexists; split; [reflexivity|]);
    cbn [fs trace Py.emit]; unfold prints, writes; rewrite !omap_app;
    cbn [omap]; rewrite !app_nil_r; repeat split.
Qed.

(** A callback whose blur is refused for every image leaves the disk and
    the writes of the log as they were, however it ends. *)
Lemma apply_gaussian_blur_refused (w : World E) (k : Z) (reject : ndarray -> exn) :
  py_int E (tk_kernel w) = inr k ->
  (forall img, cv2_GaussianBlur E (Some img) (k, k) 0 = inl (reject img)) ->
  fs (snd (apply_gaussian_blur w)) = fs w /\
  writes (trace (snd (apply_gaussian_blur w))) = writes (trace w).
Proof.
  intros Hint Hrej. rewrite (apply_gaussian_blur_int w k Hint).
  destruct (os_listdir E (fs w) (tk_folder_path w)) as [e|names] eqn:Hls.
  - rewrite (read_image_from_directory_unlisted _ _ _ w e Hls).
    cbn [snd fs trace Py.emit]. unfold writes. rewrite omap_app. cbn [omap].
    now rewrite app_nil_r.
  - destruct (read_image_from_directory_all_fail (tk_folder_path w)
                (GausianBlur_class E) k reject
                (attempt_GausianBlur_refused (tk_folder_path w) k reject Hrej)
                names w Hls)
      as (w' & Hrun & Hfs & Hw & _).
    rewrite Hrun. cbn [snd fs trace Py.emit]. unfold writes in *.
    rewrite omap_app. cbn [omap success]. now rewrite app_nil_r.
Qed.

(** C3, as the code has it. Text that [int] does not accept makes the
    callback raise the [ValueError] of [int] with the world untouched: the
    batch runner is not called, no file is read, the disk is unchanged.  An
    integer [k] is not checked against any range: whatever its sign, the
    callback is the batch runner called with [k], followed by the message
    box; the run lists the directory first and hands the window [(k, k)] to
    every [cv2.GaussianBlur] it calls.  The disk still stays as it was, and
    nothing is written, whenever [cv2.GaussianBlur] refuses that window for
    every image, which is what the routine of the specification does for
    [k <= 0]. *)
Theorem kernel_text_checked_by_int_only (reject : ndarray -> exn)
    (g : Z -> Z -> list Z) (w : World E) :
  match py_int E (tk_kernel w) with
  | inl e => apply_gaussian_blur w = (Raise e, w)
  | inr k =>
      apply_gaussian_blur w =
        (read_image_from_directory (tk_folder_path w) (GausianBlur_class E) k ;;
         Py.showinfo "Success" "Gaussian blur applied to all images.") w /\
      exists r w' new,
        apply_gaussian_blur w = (r, w') /\
        trace w' = (trace w ++ Call_listdir (tk_folder_path w) :: new)%list /\
        Forall (eq (k, k)) (ksizes new) /\
        ((forall img, cv2_GaussianBlur E (Some img) (k, k) 0 = inl (reject img)) ->
         fs w' = fs w /\ writes (trace w') = writes (trace w)) /\
        (k <= 0 -> cv2_GaussianBlur E = cv2.GaussianBlur g ->
         fs w' = fs w /\ writes (trace w') = writes (trace w))
  end.
Proof.
  destruct (py_int E (tk_kernel w)) as [e|k] eqn:Hint.
  { now apply apply_gaussian_blur_rejects. }
  split.
  { unfold apply_gaussian_blur, bind, Py.StringVar_get, Py.int.
    rewrite Hint. reflexivity. }
  destruct (apply_gaussian_blur_runs w k Hint) as (r & w' & new & Hrun & Htr & Hk & _).
  exists r, w', new. split; [exact Hrun|]. split; [exact Htr|].
  split; [exact Hk|]. split.
  - intros Hrej.
    pose proof (apply_gaussian_blur_refused w k reject Hint Hrej) as H.
    rewrite Hrun in H. exact H.
  - intros Hle Hcv.
    assert (Hrej : forall img,
               cv2_GaussianBlur E (Some img) (k, k) 0 =
               inl ((fun _ => RefMore.ksize_error) img)).
    { intros img. rewrite Hcv. now apply GaussianBlur_refuses. }
    pose proof (apply_gaussian_blur_refused w k _ Hint Hrej) as H.
    rewrite Hrun in H. exact H.
Qed.

End KernelText.

(** ** Output names *)

Lemma extension_app_nodot (p s : string) :
  Str.has_dot p = false -> Str.extension (p +:+ s) = Str.extension s.
Proof.
  induction p as [|c p IH]; intros Hp; [reflexivity|].
  rewrite StrFacts.app_cons. cbn [Str.extension Str.has_dot] in *.
  apply orb_false_iff in Hp as [Hc Hp]. rewrite (IH Hp), Hc.
  destruct (Str.extension s); reflexivity.
Qed.

(** X10. The name of an output is eligible exactly when the name of its
    source is: the files a run writes are picked up as sources by the next
    run over the same directory. *)
Theorem output_name_eligible (filename : string) :
  eligible ("processed_" +:+ filename) = eligible filename.
Proof.
  rewrite !eligible_has_image_extension. unfold has_image_extension.
  now rewrite extension_app_nodot.
Qed.

(** ** The callbacks *)

Section CallbackMore.
Context {E : Extern}.

(** X11. The callback returns normally exactly when the kernel text is an
    integer and the folder can be listed; what happens to the files of the
    folder has no part in it. *)
Theorem callback_returns_iff (w : World E) :
  fst (apply_gaussian_blur w) = Return tt <->
  (exists k, py_int E (tk_kernel w) = inr k) /\
  (exists names, os_listdir E (fs w) (tk_folder_path w) = inr names).
Proof.
  destruct (py_int E (tk_kernel w)) as [e|k] eqn:Hint.
  { rewrite (apply_gaussian_blur_rejects w e Hint). split; [discriminate|].
    intros [[k' Hk'] _]. discriminate. }
  rewrite (apply_gaussian_blur_int w k Hint).
  destruct (os_listdir E (fs w) (tk_folder_path w)) as [e|names] eqn:Hls.
  - rewrite (read_image_from_directory_unlisted _ _ _ w e Hls).
    split; [discriminate|]. intros [_ [names' Hn]]. discriminate.
  - rewrite (read_image_from_directory_listed _ _ _ w names Hls).
    pose proof (for_each_returns names
                  (loop_body (tk_folder_path w) (GausianBlur_class E) k)
                  (fun x w' => loop_body_returns _ _ _ x w')
                  (Py.emit (Call_listdir (tk_folder_path w)) w)) as Hret.
    destruct (Py.for_each names _ _) as [[[]|e] w']; [|discriminate].
    split; [eauto | reflexivity].
Qed.

(** X12. With a folder that cannot be listed the callback raises the error
    of [os.listdir]: the listing is the only call made and no message box is
    shown. *)
Theorem callback_unlistable_folder (w : World E) (k : Z) (e : exn) :
  py_int E (tk_kernel w) = inr k ->
  os_listdir E (fs w) (tk_folder_path w) = inl e ->
  apply_gaussian_blur w =
    (Raise e,
     mk_World (fs w) (tk_folder_path w) (tk_kernel w)
       (trace w ++ [Call_listdir (tk_folder_path w)])%list).
Proof.
  intros Hint Hls. rewrite (apply_gaussian_blur_int w k Hint).
  rewrite (read_image_from_directory_unlisted _ _ _ w e Hls). reflexivity.
Qed.

(** X13. The callback never changes the two fields of the form, whether it
    returns or raises: pressing Apply again runs on the same folder with the
    same kernel text. *)
Theorem callback_keeps_form_fields (w : World E) :
  tk_folder_path (snd (apply_gaussian_blur w)) = tk_folder_path w /\
  tk_kernel (snd (apply_gaussian_blur w)) = tk_kernel w.
Proof.
  destruct (py_int E (tk_kernel w)) as [e|k] eqn:Hint.
  { rewrite (apply_gaussian_blur_rejects w e Hint). split; reflexivity. }
  rewrite (apply_gaussian_blur_int w k Hint).
  destruct (os_listdir E (fs w) (tk_folder_path w)) as [e|names] eqn:Hls.
  - rewrite (read_image_from_directory_unlisted _ _ _ w e Hls).
    split; reflexivity.
  - rewrite (read_image_from_directory_listed _ _ _ w names Hls).
    destruct (for_each_GausianBlur_turns (tk_folder_path w) k names
                (Py.emit (Call_listdir (tk_folder_path w)) w))
      as (w' & new & failed & written & Hrun & _ & Hfp & Hk & _).
    rewrite Hrun. cbn [snd tk_folder_path tk_kernel Py.emit] in *.
    split; assumption.
Qed.

(** X15. The success box says nothing about the files: with a kernel size
    that [cv2.GaussianBlur] refuses for every image, the callback still
    returns and ends by showing "Success", although the disk is exactly as
    before and [cv2.imwrite] was never called. *)
Theorem success_box_despite_failures (w : World E) (k : Z)
    (reject : ndarray -> exn) (names : list string) :
  py_int E (tk_kernel w) = inr k ->
  (forall img, cv2_GaussianBlur E (Some img) (k, k) 0 = inl (reject img)) ->
  os_listdir E (fs w) (tk_folder_path w) = inr names ->
  exists w',
    apply_gaussian_blur w = (Return tt, w') /\
    last (trace w') = Some success /\
    fs w' = fs w /\
    writes (trace w') = writes (trace w) /\
    length (prints (trace w')) =
      (length (prints (trace w)) + length (List.filter eligible names))%nat.
Proof.
  intros Hint Hrej Hls. rewrite (apply_gaussian_blur_int w k Hint).
  destruct (read_image_from_directory_all_fail (tk_folder_path w)
              (GausianBlur_class E) k reject) with (names := names) (w := w)
    as (w' & Hrun & Hfs & Hw & Hp); [|exact Hls|].
  { intros filename w0. rewrite attempt_GausianBlur. cbv zeta.
    unfold turn_failure.
    destruct (cv2_imread E (fs w0) _) as [img|]; [rewrite Hrej|];
      (eexists; split; [reflexivity|]);
      cbn [fs trace Py.emit]; unfold prints, writes; rewrite !omap_app;
      cbn [omap]; rewrite !app_nil_r; repeat split. }
  rewrite Hrun. exists (Py.emit success w'). split; [reflexivity|].
  cbn [fs trace Py.emit]. split; [apply last_snoc|]. split; [exact Hfs|].
  unfold prints, writes in *. rewrite !omap_app. cbn [omap success].
  rewrite !app_nil_r, Hp, length_app, length_map. auto.
Qed.

(** X14. Browse then Apply: when the dialog answers [folder], Browse stores
    it in the folder field, replacing what was there and leaving the kernel
    text and the disk alone, and the batch that Apply starts lists that
    folder. *)
Theorem browse_then_apply_lists_choice (askdirectory : M E string)
    (w w1 : World E) (folder : string) (k : Z) :
  askdirectory w = (Return folder, w1) ->
  py_int E (tk_kernel w1) = inr k ->
  browse_folder askdirectory w =
    (Return tt, mk_World (fs w1) folder (tk_kernel w1) (trace w1)) /\
  exists r w' new,
    (browse_folder askdirectory ;; apply_gaussian_blur) w = (r, w') /\
    trace w' = (trace w1 ++ Call_listdir folder :: new)%list.
Proof.
  intros Hask Hint.
  assert (Hb : browse_folder askdirectory w =
               (Return tt, mk_World (fs w1) folder (tk_kernel w1) (trace w1))).
  { unfold browse_folder, bind. rewrite Hask. reflexivity. }
  split; [exact Hb|]. unfold bind at 1. rewrite Hb.
  destruct (apply_gaussian_blur_runs
              (mk_World (fs w1) folder (tk_kernel w1) (trace w1)) k Hint)
    as (r & w' & new & Hrun & Htr & _).
  now exists r, w', new.
Qed.

End CallbackMore.

(** ** Runs in the reference environment *)

Module RefRuns.
Import Ref.

Example eligible_names :
  map eligible ["a.PNG"; "notes.txt"; "x.JpEg"; ".bmp"; "png"; "a.png.txt"] =
  [true; false; true; true; false; false].
Proof. reflexivity. Qed.

Example join_paths :
  map (fun ab => join (fst ab) (snd ab))
    [("pics", "a.png"); ("pics/", "a.png"); ("", "a.png"); ("pics", "/a.png")] =
  ["pics/a.png"; "pics/a.png"; "a.png"; "/a.png"].
Proof. reflexivity. Qed.

Example int_of_text :
  int "5" = inr 5 /\ int "-3" = inr (-3) /\ int "0" = inr 0 /\
  int "3.5" =
    inl (mk_exn ValueError "invalid literal for int() with base 10: '3.5'") /\
  int "" = inl (mk_exn ValueError "invalid literal for int() with base 10: ''").
Proof. repeat split; reflexivity. Qed.

(** The scenario of the specification: of the two eligible files one is
    damaged; one output is written, one failure is printed, and the text file
    is neither read nor reported. *)
Example batch_of_three :
  let run := read_image_from_directory "pics" blur 3 (world0 "3") in
  fst run = Return tt /\
  reads (trace (snd run)) = ["pics/bad.jpg"; "pics/a.PNG"] /\
  writes (trace (snd run)) = ["pics/processed_a.PNG"] /\
  prints (trace (snd run)) =
    ["Failed to process bad.jpg: Error: Image pics/bad.jpg not found!"] /\
  imread (fs (snd run)) "pics/processed_a.PNG" =
    Some (mk_ndarray 2 2 1 [25; 25; 25; 25]).
Proof. repeat split; reflexivity. Qed.

Lemma listing0 (kernel : string) :
  os_listdir env (fs (world0 kernel)) "pics" = inr names0.
Proof. reflexivity. Qed.

(** The damaged file comes first: its failure is printed and the two
    entries after it are still visited. *)
Lemma batch_contains_file_errors_witness :
  let w := world0 "3" in
  let w0 := Py.emit (Call_listdir "pics") w in
  let w1 := Py.emit (Call_imread "pics/bad.jpg") w0 in
  let e := not_found "pics/bad.jpg" in
  let reported :=
    mk_World (disk0 : FS env) "pics" "3"
      [Call_listdir "pics"; Call_imread "pics/bad.jpg";
       Call_print "Failed to process bad.jpg: Error: Image pics/bad.jpg not found!"] in
  fst (read_image_from_directory "pics" blur 3 w) = Return tt /\
  loop_body "pics" blur 3 "bad.jpg" w0 = (Return tt, reported) /\
  read_image_from_directory "pics" blur 3 w =
    Py.for_each ["notes.txt"; "a.PNG"] (loop_body "pics" blur 3) reported.
Proof.
  intros w w0 w1 e reported.
  destruct (batch_contains_file_errors "pics" blur 3 w names0 (listing0 "3"))
    as [Hret Hfile].
  split; [exact Hret|].
  apply (Hfile [] "bad.jpg" ["notes.txt"; "a.PNG"] e w0 w1);
    reflexivity.
Defined.

Lemma unlistable_directory_raises_witness :
  let w := mk_World (disk0 : FS env) "nowhere" "3" [] in
  let e := mk_exn OSError "[Errno 2] No such file or directory: 'nowhere'" in
  read_image_from_directory "nowhere" blur 3 w =
    (Raise e, Py.emit (Call_listdir "nowhere") w) /\
  fs (Py.emit (Call_listdir "nowhere") w) = fs w /\
  trace (Py.emit (Call_listdir "nowhere") w) = [Call_listdir "nowhere"].
Proof.
  intros w e.
  apply (unlistable_directory_raises "nowhere" blur 3 w e).
  reflexivity.
Defined.

Lemma batch_reports_by_side_effects_witness :
  exists w' (failed : list (string * exn)) (written : list string),
    read_image_from_directory "pics" blur 3 (world0 "3") = (Return tt, w') /\
    sublist (map fst failed) names0 /\
    sublist written names0 /\
    prints (trace w') = (prints [] ++ map line_of failed)%list /\
    writes (trace w') = (writes [] ++ map (output_path env "pics") written)%list.
Proof.
  apply (batch_reports_by_side_effects "pics" 3 (world0 "3") names0).
  apply listing0.
Defined.


(** The text "abc" is refused by [int]; the text "0" runs the batch with
    the window (0, 0), which the blur refuses, so that nothing is written. *)
Lemma kernel_text_checked_by_int_only_witness :
  apply_gaussian_blur (world0 "abc") =
    (Raise (mk_exn ValueError "invalid literal for int() with base 10: 'abc'"),
     world0 "abc") /\
  exists r w' new,
    apply_gaussian_blur (world0 "0") = (r, w') /\
    trace w' = Call_listdir "pics" :: new /\
    Forall (eq (0, 0)) (ksizes new) /\
    fs w' = disk0 /\
    writes (trace w') = [].
Proof.
  split.
  - exact (kernel_text_checked_by_int_only (fun _ => RefMore.ksize_error)
             kernel_weights (world0 "abc")).
  - destruct (kernel_text_checked_by_int_only (fun _ => RefMore.ksize_error)
                kernel_weights (world0 "0"))
      as (_ & r & w' & new & Hrun & Htr & Hk & Hrefused & Hmodel).
    exists r, w', new. split; [exact Hrun|]. split; [exact Htr|].
    split; [exact Hk|].
    assert (Hzero : 0 <= 0) by lia.
    destruct (Hmodel Hzero eq_refl) as [Hfs Hw].
    destruct (Hrefused (fun img => eq_refl)) as [_ _].
    split; assumption.
Defined.

Lemma kernel_size_passed_unchanged_witness :
  (forall filename (w0 w1 : World env) self,
     GausianBlur.__init__ filename 4 w0 = (Return self, w1) ->
     GausianBlur.kernel self = 4) /\
  exists w' mid,
    apply_gaussian_blur (world0 "4") = (Return tt, w') /\
    trace w' = ([] ++ Call_listdir "pics" :: mid ++ [success])%list /\
    Forall (eq (4, 4)) (ksizes mid).
Proof.
  apply (kernel_size_passed_unchanged (world0 "4") 4 names0);
    reflexivity.
Defined.

Lemma base_process_raises_witness :
  let w := world0 "3" in
  let self : instance (ImageProcessor_class env) := ImageProcessor.mk (Some picture) in
  new (ImageProcessor_class env) "pics/a.PNG" tt w =
    (Return self, Py.emit (Call_imread "pics/a.PNG") w) /\
  process (ImageProcessor_class env) self w =
    (Raise (mk_exn ValueError "Subclasses should implement this!"), w).
Proof.
  intros w self.
  assert (Hnew : new (ImageProcessor_class env) "pics/a.PNG" tt w =
                 (Return self, Py.emit (Call_imread "pics/a.PNG") w))
    by reflexivity.
  split; [exact Hnew|].
  exact (base_process_raises "pics/a.PNG" w _ self Hnew w).
Defined.

Lemma GausianBlur_process_keeps_shape_witness :
  exists out w',
    GausianBlur.process (GausianBlur.mk (ImageProcessor.mk (Some picture)) 3)
      (world0 "3") =
      (Return (GausianBlur.mk (ImageProcessor.mk (Some out)) 3), w') /\
    shape out = (2, 2, 1)%nat /\
    length (data out) = 4%nat.
Proof.
  apply (GausianBlur_process_keeps_shape (E := env) kernel_weights
           (GausianBlur.mk (ImageProcessor.mk (Some picture)) 3) picture
           (world0 "3"));
    reflexivity.
Defined.

(** The same directory blurred with a window of 3 and with a window of 4:
    one run writes an output and prints one failure, the other writes nothing
    and prints two, and both return [None]. *)
Lemma batch_returns_none_either_way :
  let run k := read_image_from_directory "pics" blur k (world0 "") in
  fst (run 3) = Return tt /\
  fst (run 4) = Return tt /\
  writes (trace (snd (run 3))) = ["pics/processed_a.PNG"] /\
  writes (trace (snd (run 4))) = [] /\
  length (prints (trace (snd (run 3)))) = 1%nat /\
  length (prints (trace (snd (run 4)))) = 2%nat.
Proof. repeat split; reflexivity. Qed.

(** A failure is only a printed line.  With a window of 4 the blur of
    [pics/a.PNG] is refused: the batch returns [None], the disk is as it was,
    and the line printed for the file carries its bare name and the reason;
    the path [pics/a.PNG] occurs nowhere in it. *)
Lemma failure_is_a_line_with_the_bare_name :
  let run := read_image_from_directory "pics" blur 4 (world0 "4") in
  let line :=
    "Failed to process a.PNG: ksize.width > 0 && ksize.width % 2 == 1 && ksize.height > 0 && ksize.height % 2 == 1" in
  os_path_join env "pics" "a.PNG" = "pics/a.PNG" /\
  fst run = Return tt /\
  files (fs (snd run)) = files disk0 /\
  prints (trace (snd run)) =
    ["Failed to process bad.jpg: Error: Image pics/bad.jpg not found!"; line] /\
  String.index 0 "pics/a.PNG" line = None /\
  String.index 0 "a.PNG" line = Some 18%nat.
Proof. repeat split; reflexivity. Qed.


(** A kernel size of 0: [int] accepts it, the callback returns, and the
    batch runner has listed the directory and read both image files. *)
Lemma zero_kernel_runs_the_batch :
  let run := apply_gaussian_blur (world0 "0") in
  py_int env "0" = inr 0 /\
  fst run = Return tt /\
  head (trace (snd run)) = Some (Call_listdir "pics") /\
  reads (trace (snd run)) = ["pics/bad.jpg"; "pics/a.PNG"].
Proof. repeat split; reflexivity. Qed.

(** A kernel size of 4: the callback returns and shows the success box, and
    [cv2.GaussianBlur] was handed the window (4, 4), not (5, 5). *)
Lemma even_kernel_reaches_GaussianBlur :
  let run := apply_gaussian_blur (world0 "4") in
  py_int env "4" = inr 4 /\
  fst run = Return tt /\
  ksizes (trace (snd run)) = [(4, 4)] /\
  last (trace (snd run)) = Some success.
Proof. repeat split; reflexivity. Qed.

(** Runs for the further properties *)

Lemma unwritten_output_not_reported_witness :
  exists w',
    loop_body "pics" (GausianBlur_class RefMore.readonly) 3 "a.PNG"
      RefMore.readonly_world = (Return tt, w') /\
    prints (trace w') = [] /\
    fs w' = disk0.
Proof.
  apply (unwritten_output_not_reported (E := RefMore.readonly) "pics" 3 "a.PNG"
           RefMore.readonly_world picture RefMore.blurred disk0);
    reflexivity.
Defined.

Lemma undecodable_file_is_reported_witness :
  loop_body "pics" blur 3 "bad.jpg" (world0 "3") =
    (Return tt,
     mk_World (disk0 : FS env) "pics" "3"
       [Call_imread "pics/bad.jpg";
        Call_print "Failed to process bad.jpg: Error: Image pics/bad.jpg not found!"]).
Proof.
  apply (undecodable_file_is_reported (E := env) "pics" 3 "bad.jpg" (world0 "3"));
    reflexivity.
Defined.

Lemma unblurred_image_is_not_written_witness :
  loop_body "pics" blur 4 "a.PNG" (world0 "4") =
    (Return tt,
     mk_World (disk0 : FS env) "pics" "4"
       [Call_imread "pics/a.PNG";
        Call_GaussianBlur (Some picture) (4, 4) 0;
        Call_print
          "Failed to process a.PNG: ksize.width > 0 && ksize.width % 2 == 1 && ksize.height > 0 && ksize.height % 2 == 1"]).
Proof.
  apply (unblurred_image_is_not_written (E := env) "pics" 4 "a.PNG" (world0 "4")
           picture RefMore.ksize_error);
    reflexivity.
Defined.

Lemma write_error_is_reported_witness :
  loop_body "pics" (GausianBlur_class RefMore.failing) 3 "a.PNG"
    RefMore.failing_world =
    (Return tt,
     mk_World (disk0 : FS RefMore.failing) "pics" "3"
       [Call_imread "pics/a.PNG";
        Call_GaussianBlur (Some picture) (3, 3) 0;
        Call_imwrite "pics/processed_a.PNG" (Some RefMore.blurred);
        Call_print "Failed to process a.PNG: could not write the image"]).
Proof.
  apply (write_error_is_reported (E := RefMore.failing) "pics" 3 "a.PNG"
           RefMore.failing_world picture RefMore.blurred RefMore.write_error disk0);
    reflexivity.
Defined.

Lemma written_image_is_blurred_source_witness :
  exists img out,
    cv2_imread env (fs (world0 "3")) "pics/a.PNG" = Some img /\
    cv2_GaussianBlur env (Some img) (3, 3) 0 = inr out /\
    trace (snd (attempt "pics" blur 3 "a.PNG" (world0 "3"))) =
      [Call_imread "pics/a.PNG";
       Call_GaussianBlur (Some img) (3, 3) 0;
       Call_imwrite "pics/processed_a.PNG" (Some out)].
Proof.
  apply (written_image_is_blurred_source (E := env) "pics" 3 "a.PNG" (world0 "3")
           (snd (attempt "pics" blur 3 "a.PNG" (world0 "3")))).
  reflexivity.
Defined.

Lemma batch_reads_eligible_entries_witness :
  reads (trace (snd (read_image_from_directory "pics" blur 3 (world0 "3")))) =
  ["pics/bad.jpg"; "pics/a.PNG"].
Proof.
  apply (batch_reads_eligible_entries (E := env) "pics" 3 (world0 "3") names0).
  reflexivity.
Defined.

Lemma every_eligible_entry_accounted_witness :
  exists w' (failed : list (string * exn)) (written : list string),
    read_image_from_directory "pics" blur 3 (world0 "3") = (Return tt, w') /\
    prints (trace w') = map line_of failed /\
    writes (trace w') = map (output_path env "pics") written /\
    forall n, In n names0 -> eligible n = true ->
              In n (map fst failed) \/ In n written.
Proof.
  apply (every_eligible_entry_accounted (E := env) "pics" 3 (world0 "3") names0).
  reflexivity.
Defined.

Lemma refused_kernel_changes_nothing_witness :
  exists w',
    read_image_from_directory "pics" blur 4 (world0 "4") = (Return tt, w') /\
    fs w' = disk0 /\
    writes (trace w') = [] /\
    prints (trace w') =
      ["Failed to process bad.jpg: Error: Image pics/bad.jpg not found!";
       "Failed to process a.PNG: ksize.width > 0 && ksize.width % 2 == 1 && ksize.height > 0 && ksize.height % 2 == 1"].
Proof.
  apply (refused_kernel_changes_nothing (E := env) "pics" 4
           (fun _ => RefMore.ksize_error) (world0 "4") names0).
  - intros img. reflexivity.
  - reflexivity.
Defined.

Lemma base_class_batch_only_reports_witness :
  exists w',
    read_image_from_directory "pics" (ImageProcessor_class env) tt (world0 "3") =
      (Return tt, w') /\
    fs w' = disk0 /\
    writes (trace w') = [] /\
    prints (trace w') =
      ["Failed to process bad.jpg: Error: Image pics/bad.jpg not found!";
       "Failed to process a.PNG: Subclasses should implement this!"].
Proof.
  apply (base_class_batch_only_reports (E := env) "pics" (world0 "3") names0).
  reflexivity.
Defined.

Lemma batch_without_images_is_noop_witness :
  read_image_from_directory "docs" blur 3 RefMore.docs_world =
    (Return tt, Py.emit (Call_listdir "docs") RefMore.docs_world).
Proof.
  apply (batch_without_images_is_noop (E := env) "docs" blur 3 RefMore.docs_world
           ["notes.txt"; "todo.md"]).
  - reflexivity.
  - repeat constructor.
Defined.

Lemma callback_returns_iff_witness :
  fst (apply_gaussian_blur (world0 "3")) = Return tt.
Proof.
  apply (callback_returns_iff (world0 "3")).
  split; eexists; reflexivity.
Defined.

Lemma callback_unlistable_folder_witness :
  let w := mk_World (disk0 : FS env) "nowhere" "3" [] in
  apply_gaussian_blur w =
    (Raise (mk_exn OSError "[Errno 2] No such file or directory: 'nowhere'"),
     mk_World (disk0 : FS env) "nowhere" "3" [Call_listdir "nowhere"]).
Proof.
  intros w.
  apply (callback_unlistable_folder (E := env) w 3); reflexivity.
Defined.

Lemma success_box_despite_failures_witness :
  exists w',
    apply_gaussian_blur (world0 "4") = (Return tt, w') /\
    last (trace w') = Some success /\
    fs w' = disk0 /\
    writes (trace w') = [] /\
    length (prints (trace w')) = 2%nat.
Proof.
  apply (success_box_despite_failures (E := env) (world0 "4") 4
           (fun _ => RefMore.ksize_error) names0).
  - reflexivity.
  - intros img. reflexivity.
  - reflexivity.
Defined.

(** The form as line 139 and line 144 create it, the dialog answering
    [pics]. *)
Lemma browse_then_apply_lists_choice_witness :
  let w := mk_World (disk0 : FS env) "" "5" [] in
  browse_folder (ret "pics") w =
    (Return tt, mk_World (disk0 : FS env) "pics" "5" []) /\
  exists r w' new,
    (browse_folder (ret "pics") ;; apply_gaussian_blur) w = (r, w') /\
    trace w' = Call_listdir "pics" :: new.
Proof.
  intros w.
  apply (browse_then_apply_lists_choice (E := env) (ret "pics") w w "pics" 5);
    reflexivity.
Defined.

End RefRuns.
